(** * tsns: the Typesense node-list sidecar

    A shallow embedding of the two programs of the repository:

    - [Fallback]  is [main.go]: the resolver falls back to the pod listing
      when the endpoint scan finds no address;
    - [Bootstrap] is the second [package main] of the repository: bootstrap
      seeding from [INITIAL_NODELIST], self address appended to every list.

    Go code runs in the monad [Go]: a computation reads and updates the disk,
    emits the events it causes (log lines, API calls, file writes) and either
    keeps running, exits through [log.Fatalf], or panics.  Everything the
    outside world decides (the orchestration API, the environment, the
    network interfaces, the file system) is an oracle handed to the program.

    A watcher delivers a finite list of notifications and then closes its
    channel; a run over a list is also the run over any channel that starts
    with it, up to that point.  Library calls follow Go and client-go:
    [(v, err)] with a nil [v] on failure, and a panic when a nil
    configuration, client or watcher is used. *)

From Stdlib Require Import ZArith List String Ascii Bool Lia DecimalString.
From Stdlib.Strings Require Byte.
From stdpp Require Import base strings gmap.
Import ListNotations.

(** ** Go values *)

(** An [error], through the text that [%s] prints for it. *)
Definition error := string.

(** The two results [(v, err)] of a library call: [Err e] is [(nil, e)]. *)
Inductive Result (A : Type) : Type :=
| Ok (a : A)
| Err (e : error).
Arguments Ok {A} a.
Arguments Err {A} e.

(** [%d] of an [int]. *)
Definition itoa (n : Z) : string := NilZero.string_of_int (Z.to_int n).

(** The newline that ends the log formats. *)
Definition nl : string := String (ascii_of_nat 10) EmptyString.

(** [strings.Join(elems, sep)]. *)
Definition Join (elems : list string) (sep : string) : string :=
  String.concat sep elems.

(** [fmt.Sprintf("%s:%d:%d", ip, peer, api)], the one node format of both
    programs. *)
Definition nodeEntry (ip : string) (peer api : Z) : string :=
  ip +:+ ":" +:+ itoa peer +:+ ":" +:+ itoa api.

(** ** The orchestration API, as far as the programs read it *)

Record EndpointAddress := { IP : string }.

Record EndpointSubset := {
  Addresses : list EndpointAddress;          (* the ready addresses *)
  NotReadyAddresses : list EndpointAddress   (* never read by the programs *)
}.

Record Endpoints := { Name : string; Subsets : list EndpointSubset }.

Record Pod := {
  PodIP : string;      (* pod.Status.PodIP *)
  PodReady : bool      (* the readiness condition; never read *)
}.

(** What the API answers at one moment: [Endpoints(ns).List] and
    [Pods(ns).List] with a label selector. *)
Record Cluster := {
  endpointsIn : string -> Result (list Endpoints);
  podsIn : string -> string -> Result (list Pod)
}.

(** What [os.WriteFile] meets: it opens with O_TRUNC, writes, closes. *)
Inductive WriteOutcome :=
| WriteOk
| OpenFails (e : error)                (* nothing touched *)
| WriteFails (e : error) (n : nat).    (* truncated, [n] bytes written *)

(** A change notification.  Its content is ignored by the programs; what
    matters is what the world answers while the notification is handled. *)
Record Notification := {
  cluster : Cluster;
  fsWrite : WriteOutcome
}.

Inductive Config := InClusterCfg | KubeconfigCfg.
Inductive Clientset := ClientsetFor (c : Config).
(** A watcher: the notifications its channel delivers until it is closed. *)
Record Watcher := { ResultChan : list Notification }.

(** [net.Addr]: only [*net.IPNet] passes the type assertion. *)
Inductive Addr :=
| IPNet (ip mask : list Byte.byte)
| IPAddr (ip : list Byte.byte).

(** Everything the host decides at startup. *)
Record Host := {
  kubeconfigAbsent : bool;   (* errors.Is(err, os.ErrNotExist) after os.Stat *)
  inClusterConfig : Result Config;
  buildConfigFromFlags : Result Config;
  newForConfig : Config -> Result Clientset;
  watchEndpoints : string -> Result Watcher;
  lookupEnv : string -> option string;
  interfaceAddrs : Result (list Addr);
  bootstrapWrite : WriteOutcome
}.

(** The package-level flag variables, after [flag.Parse].  [appSelector] is
    declared by [main.go] only. *)
Record Flags := {
  appSelector : string;
  namespace : string;
  nodesFile : string;
  service : string;
  apiPort : Z;
  peerPort : Z
}.

Definition defaultFlags : Flags := {|
  appSelector := "app.kubernetes.io/name=typesense";
  namespace := "typesense";
  nodesFile := "/usr/share/typesense/nodes";
  service := "ts";
  apiPort := 8108;
  peerPort := 8107
|}.

(** ** The monad of Go computations *)

Inductive Event :=
| Printf (msg : string)                    (* log.Printf *)
| Fatalf (msg : string)                    (* log.Fatalf, before os.Exit(1) *)
| NewForConfig (c : option Config)
| Watch (ns : string)
| ListEndpoints (ns : string)
| ListPods (ns selector : string)
| WriteFile (path data : string) (o : WriteOutcome).

(** How a computation ends: it returns [a] and the program goes on
    ([main] returning is the process ending with status 0), the process
    exits with [code], or it dies in a run-time panic. *)
Inductive Status (A : Type) : Type :=
| Running (a : A)
| Exited (code : Z)
| Panicked.
Arguments Running {A} a.
Arguments Exited {A} code.
Arguments Panicked {A}.

Record Run (A : Type) : Type := MkRun {
  status : Status A;
  disk : gmap string string;
  events : list Event
}.
Arguments MkRun {A} _ _ _.
Arguments status {A} _.
Arguments disk {A} _.
Arguments events {A} _.

Definition Go (A : Type) : Type := gmap string string -> Run A.

Definition ret {A} (a : A) : Go A := fun d => MkRun (Running a) d [].

(** Sequencing: the second computation runs only while the first one is
    still running; an exit or a panic ends the program there. *)
Definition bind {A B} (k : A -> Go B) (m : Go A) : Go B := fun d =>
  let r := m d in
  match status r with
  | Running a =>
      let r' := k a (disk r) in
      MkRun (status r') (disk r') (events r ++ events r')
  | Exited c => MkRun (Exited c) (disk r) (events r)
  | Panicked => MkRun Panicked (disk r) (events r)
  end.

#[global] Instance Go_ret : MRet Go := @ret.
#[global] Instance Go_bind : MBind Go := @bind.

Definition emit (e : Event) : Go unit := fun d => MkRun (Running tt) d [e].

Definition logPrintf (msg : string) : Go unit := emit (Printf msg).

(** [log.Fatalf]: the message, then [os.Exit(1)]. *)
Definition logFatalf {A} (msg : string) : Go A :=
  fun d => MkRun (Exited 1) d [Fatalf msg].

(** A nil dereference: the run-time panic that ends the process. *)
Definition panic {A} : Go A := fun d => MkRun Panicked d [].

(** [os.WriteFile(path, data, 0666)], returning its error. *)
Definition osWriteFile (path data : string) (o : WriteOutcome)
  : Go (option error) := fun d =>
  match o with
  | WriteOk => MkRun (Running None) (<[path := data]> d) [WriteFile path data o]
  | OpenFails e => MkRun (Running (Some e)) d [WriteFile path data o]
  | WriteFails e n =>
      MkRun (Running (Some e))
            (<[path := String.substring 0 n data]> d)
            [WriteFile path data o]
  end.

(** [for range xs { body }]. *)
Fixpoint forRange {A} (xs : list A) (body : A -> Go unit) : Go unit :=
  match xs with
  | [] => ret tt
  | x :: rest => body x ;; forRange rest body
  end.

(** [clients.CoreV1().Endpoints(ns).List(...)]. *)
Definition listEndpoints (clients : Clientset) (cl : Cluster) (ns : string)
  : Go (Result (list Endpoints)) :=
  emit (ListEndpoints ns) ;; ret (endpointsIn cl ns).

(** [clients.CoreV1().Pods(ns).List(..., LabelSelector: selector)]. *)
Definition listPods (clients : Clientset) (cl : Cluster) (ns selector : string)
  : Go (Result (list Pod)) :=
  emit (ListPods ns selector) ;; ret (podsIn cl ns selector).

(** ** The endpoint scan, shared by both [getNodes] *)

(** The three nested [for] loops over [endpoints.Items]: every ready address
    of every subset of every item named [service] is appended to [nodes]. *)
Definition scanEndpoints (f : Flags) (items : list Endpoints)
    (nodes : list string) : list string :=
  fold_left (fun nodes e =>
    if negb (String.eqb (Name e) (service f)) then nodes
    else
      fold_left (fun nodes s =>
        fold_left (fun nodes a =>
          nodes ++ [nodeEntry (IP a) (peerPort f) (apiPort f)])
          (Addresses s) nodes)
        (Subsets e) nodes)
    items nodes.

(** The ready addresses of the configured service, in iteration order:
    item order, then subset order, then address order. *)
Definition serviceAddresses (f : Flags) (items : list Endpoints)
  : list EndpointAddress :=
  flat_map (fun e =>
    if String.eqb (Name e) (service f)
    then flat_map Addresses (Subsets e) else []) items.

(** [p.m()] on a pointer or interface value: a nil one is a run-time panic. *)
Definition deref {A} (p : option A) : Go A :=
  match p with
  | Some a => mret a
  | None => panic
  end.

(** [kubernetes.NewForConfig(config)]; it copies [*config] first. *)
Definition kubernetesNewForConfig (h : Host) (config : option Config)
  : Go (Result Clientset) :=
  emit (NewForConfig config) ;;
  c ← deref config;
  mret (newForConfig h c).

(** [clients.CoreV1().Endpoints(ns).Watch(...)]. *)
Definition watchCall (h : Host) (clients : Clientset) (ns : string)
  : Go (Result Watcher) :=
  emit (Watch ns) ;; mret (watchEndpoints h ns).

(** ** [main.go]: the resolver with the pod fallback *)

Module Fallback.

(** [getNodes] of [main.go]. *)
Definition getNodes (f : Flags) (clients : Clientset) (cl : Cluster)
  : Go string :=
  endpoints ← listEndpoints clients cl (namespace f);
  match endpoints with
  | Err e =>
      logPrintf ("failed to list endpoints: " +:+ e +:+ nl) ;;
      mret ""
  | Ok items =>
      let nodes := scanEndpoints f items [] in
      if length nodes =? 0 then
        pods ← listPods clients cl (namespace f) (appSelector f);
        match pods with
        | Err e =>
            logPrintf ("failed to list pods: " +:+ e +:+ nl) ;;
            mret ""
        | Ok items =>
            let nodes :=
              fold_left (fun nodes pod =>
                nodes ++ [nodeEntry (PodIP pod) (peerPort f) (apiPort f)])
                items nodes in
            mret (Join nodes ",")
        end
      else mret (Join nodes ",")
  end.

(** The body of [for range watcher.ResultChan()]. *)
Definition onNotification (f : Flags) (clients : Clientset)
    (n : Notification) : Go unit :=
  nodes ← getNodes f clients (cluster n);
  err ← osWriteFile (nodesFile f) nodes (fsWrite n);
  match err with
  | Some e => logPrintf ("failed to write nodes file: " +:+ e +:+ nl)
  | None => mret tt
  end.

(** Lines 33-59: every failure is logged with [log.Printf], and the
    function goes on with the nil value. *)
Definition connect (f : Flags) (h : Host)
  : Go (option Clientset * option Watcher) :=
  config ← (if kubeconfigAbsent h then
              match inClusterConfig h with
              | Err e =>
                  logPrintf ("failed to build local config: " +:+ e +:+ nl) ;;
                  mret None
              | Ok c => mret (Some c)
              end
            else
              match buildConfigFromFlags h with
              | Err e =>
                  logPrintf
                    ("failed to build in-cluster config: " +:+ e +:+ nl) ;;
                  mret None
              | Ok c => mret (Some c)
              end);
  r ← kubernetesNewForConfig h config;
  clients ← match r with
            | Err e =>
                logPrintf
                  ("failed to create kubernetes client: " +:+ e +:+ nl) ;;
                mret None
            | Ok c => mret (Some c)
            end;
  c ← deref clients;
  r ← watchCall h c (namespace f);
  watcher ← match r with
            | Err e =>
                logPrintf
                  ("failed to create endpoints watcher: " +:+ e +:+ nl) ;;
                mret None
            | Ok w => mret (Some w)
            end;
  mret (clients, watcher).

(** Lines 61-66. *)
Definition watchLoop (f : Flags) (clients : option Clientset)
    (watcher : option Watcher) : Go unit :=
  w ← deref watcher;
  c ← deref clients;
  forRange (ResultChan w) (onNotification f c).

Definition main (f : Flags) (h : Host) : Go unit :=
  '(clients, watcher) ← connect f h;
  watchLoop f clients watcher.

End Fallback.

(** ** The program with bootstrap seeding and the self address *)

Module Bootstrap.

Definition bootstrapVar : string := "INITIAL_NODELIST".

(** [getNodes]: the endpoint scan alone. *)
Definition getNodes (f : Flags) (clients : Clientset) (cl : Cluster)
  : Go string :=
  endpoints ← listEndpoints clients cl (namespace f);
  match endpoints with
  | Err e =>
      logPrintf ("failed to list endpoints: " +:+ e +:+ nl) ;;
      mret ""
  | Ok items => mret (Join (scanEndpoints f items []) ",")
  end.

(** [net.IP.To4]: the four bytes of an IPv4 address, also of one stored in
    16 bytes behind the prefix 0:0:0:0:0:ffff; nil otherwise. *)
Definition To4 (ip : list Byte.byte) : option (list Byte.byte) :=
  if length ip =? 4 then Some ip
  else if (length ip =? 16)
          && forallb (Byte.eqb Byte.x00) (firstn 10 ip)
          && Byte.eqb (nth 10 ip Byte.x00) Byte.xff
          && Byte.eqb (nth 11 ip Byte.x00) Byte.xff
  then Some (skipn 12 ip)
  else None.

#[global] Instance byte_eq_dec : EqDecision Byte.byte := Byte.byte_eq_dec.

Definition IPv6loopback : list Byte.byte :=
  repeat Byte.x00 15 ++ [Byte.x01].

(** [net.IP.IsLoopback]: 127.0.0.0/8, or ::1. *)
Definition IsLoopback (ip : list Byte.byte) : bool :=
  match To4 ip with
  | Some ip4 => Byte.eqb (nth 0 ip4 Byte.x00) Byte.x7f
  | None => bool_decide (ip = IPv6loopback)
  end.

Definition byteDec (b : Byte.byte) : string := itoa (Z.of_N (Byte.to_N b)).

(** [net.IP.String] of an address whose [To4] is [ip4]: the dotted quad. *)
Definition dottedQuad (ip4 : list Byte.byte) : string :=
  Join (map byteDec ip4) ".".

(** The [for] loop of [getCurrentIP], and its final [return ""]. *)
Fixpoint firstIPv4 (addrs : list Addr) : string :=
  match addrs with
  | [] => ""
  | IPNet ip _ :: rest =>
      if negb (IsLoopback ip) then
        match To4 ip with
        | Some ip4 => dottedQuad ip4
        | None => firstIPv4 rest
        end
      else firstIPv4 rest
  | IPAddr _ :: rest => firstIPv4 rest
  end.

Definition getCurrentIP (h : Host) : Go string :=
  match interfaceAddrs h with
  | Err e => logFatalf ("error resolving local addresses: " +:+ e +:+ nl)
  | Ok addrs => mret (firstIPv4 addrs)
  end.

(** Lines 35-61: every failure ends the process through [log.Fatalf]. *)
Definition connect (f : Flags) (h : Host) : Go (Clientset * Watcher) :=
  config ← (if kubeconfigAbsent h then
              match inClusterConfig h with
              | Err e =>
                  logFatalf ("failed to build local config: " +:+ e +:+ nl)
              | Ok c => mret c
              end
            else
              match buildConfigFromFlags h with
              | Err e =>
                  logFatalf
                    ("failed to build in-cluster config: " +:+ e +:+ nl)
              | Ok c => mret c
              end);
  r ← kubernetesNewForConfig h (Some config);
  clients ← match r with
            | Err e =>
                logFatalf
                  ("failed to create kubernetes client: " +:+ e +:+ nl)
            | Ok c => mret c
            end;
  r ← watchCall h clients (namespace f);
  watcher ← match r with
            | Err e =>
                logFatalf
                  ("failed to create endpoints watcher: " +:+ e +:+ nl)
            | Ok w => mret w
            end;
  mret (clients, watcher).

(** Lines 63-74: the self entry, and the seeding write when the variable is
    set.  Returns [thisNode]. *)
Definition bootstrap (f : Flags) (h : Host) : Go string :=
  let '(initialNodes, bootstrapMode) :=
    match lookupEnv h bootstrapVar with
    | Some v => (v, true)
    | None => ("", false)
    end in
  ip ← getCurrentIP h;
  let thisNode := nodeEntry ip 8107 8108 in
  (if bootstrapMode then
     let flattenedNodes := Join [initialNodes; thisNode] "," in
     logPrintf
       ("Bootstrapping cluster with initial node list: " +:+ flattenedNodes) ;;
     err ← osWriteFile (nodesFile f) flattenedNodes (bootstrapWrite h);
     match err with
     | Some e => logFatalf ("failed to write node list: " +:+ e +:+ nl)
     | None => mret tt
     end
   else mret tt) ;;
  mret thisNode.

(** The body of [for range watcher.ResultChan()]. *)
Definition onNotification (f : Flags) (clients : Clientset)
    (thisNode : string) (n : Notification) : Go unit :=
  nodes ← getNodes f clients (cluster n);
  if 0 <? String.length nodes then
    let flattenedNodes := Join [nodes; thisNode] "," in
    logPrintf ("found nodes (and added self): " +:+ flattenedNodes +:+ nl) ;;
    err ← osWriteFile (nodesFile f) flattenedNodes (fsWrite n);
    match err with
    | Some e => logPrintf ("failed to write nodes file: " +:+ e +:+ nl)
    | None => mret tt
    end
  else mret tt.

(** Lines 77-88. *)
Definition watchLoop (f : Flags) (clients : Clientset) (watcher : Watcher)
    (thisNode : string) : Go unit :=
  forRange (ResultChan watcher) (onNotification f clients thisNode).

Definition main (f : Flags) (h : Host) : Go unit :=
  '(clients, watcher) ← connect f h;
  thisNode ← bootstrap f h;
  watchLoop f clients watcher thisNode.

End Bootstrap.

(** * Notions used in the statements *)

(** The write events among the events of a run. *)
Definition isWrite (e : Event) : bool :=
  match e with WriteFile _ _ _ => true | _ => false end.
Definition writes (evs : list Event) : list Event := List.filter isWrite evs.

(** The pod listings among the events of a run. *)
Definition isListPods (e : Event) : bool :=
  match e with ListPods _ _ => true | _ => false end.

(** The error [os.WriteFile] returns. *)
Definition writeError (o : WriteOutcome) : option error :=
  match o with
  | WriteOk => None
  | OpenFails e => Some e
  | WriteFails e _ => Some e
  end.

(** The entry of one address under the configured ports. *)
Definition entryOf (f : Flags) (a : EndpointAddress) : string :=
  nodeEntry (IP a) (peerPort f) (apiPort f).

(** How often the character [c] occurs in [s]. *)
Fixpoint count (c : ascii) (s : string) : nat :=
  match s with
  | EmptyString => 0
  | String x s' => (if Ascii.eqb x c then 1 else 0) + count c s'
  end.

(** The two separators of the nodes file. *)
Definition isSep (c : ascii) : Prop := c = ":"%char \/ c = ","%char.

(** The entry of one pod under the configured ports. *)
Definition podEntry (f : Flags) (p : Pod) : string :=
  nodeEntry (PodIP p) (peerPort f) (apiPort f).

(** A well-formed host part: it holds neither separator of the file. *)
Definition plainIP (a : EndpointAddress) : Prop :=
  count ":" (IP a) = 0 /\ count "," (IP a) = 0.

(** The log line of a failed steady-state write, if it failed. *)
Definition writeLog (o : WriteOutcome) : list Event :=
  match writeError o with
  | Some e => [Printf ("failed to write nodes file: " +:+ e +:+ nl)]
  | None => []
  end.

(** The endpoint listing succeeded and the scan found no address. *)
Definition scanFoundNothing (f : Flags) (cl : Cluster) : Prop :=
  exists items,
    endpointsIn cl (namespace f) = Ok items /\ serviceAddresses f items = [].

Definition endpointListFails (f : Flags) (cl : Cluster) (e : error) : Prop :=
  endpointsIn cl (namespace f) = Err e.

Definition podListFails (f : Flags) (cl : Cluster) (e : error) : Prop :=
  scanFoundNothing f cl /\ podsIn cl (namespace f) (appSelector f) = Err e.

(** The rest of a loop after a turn that left [r]. *)
Definition andThen (r : Run unit) (next : Go unit) : Run unit :=
  let r' := next (disk r) in
  MkRun (status r') (disk r') (events r ++ events r').

(** A computation that touches no file. *)
Definition quiet {A} (m : Go A) : Prop :=
  forall d, disk (m d) = d /\ writes (events (m d)) = [].

(** A computation that never panics and exits only through [log.Fatalf],
    with status 1 and the fatal message as its last event. *)
Definition fatalOnly {A} (m : Go A) : Prop :=
  forall d,
    match status (m d) with
    | Running _ => True
    | Exited c => c = 1%Z /\ exists evs msg, events (m d) = evs ++ [Fatalf msg]
    | Panicked => False
    end.

(** The run [r] after the events [evs]. *)
Definition emitting {A} (evs : list Event) (r : Run A) : Run A :=
  MkRun (status r) (disk r) (evs ++ events r).

(** An interface address [getCurrentIP] returns at: a [*net.IPNet] that is
    not a loopback and has an IPv4 form. *)
Definition qualifies (a : Addr) : bool :=
  match a with
  | IPNet ip _ =>
      negb (Bootstrap.IsLoopback ip)
      && match Bootstrap.To4 ip with Some _ => true | None => false end
  | IPAddr _ => false
  end.

(** The configuration the startup code tries to build. *)
Definition configResult (h : Host) : Result Config :=
  if kubeconfigAbsent h then inClusterConfig h else buildConfigFromFlags h.

(** An event that leaves every file but [path] alone. *)
Definition touchesOnly (path : string) (e : Event) : Prop :=
  match e with
  | WriteFile p _ _ => p = path
  | _ => True
  end.

(** A computation that writes no file but [path]. *)
Definition writesOnly {A} (path : string) (m : Go A) : Prop :=
  forall d,
    (forall p, p <> path -> disk (m d) !! p = d !! p) /\
    List.Forall (touchesOnly path) (events (m d)).



(** * Example inputs *)

Definition clients0 : Clientset := ClientsetFor InClusterCfg.

(** An API server that refuses every listing. *)
Definition clusterDown : Cluster := {|
  endpointsIn := fun _ => Err "connection refused";
  podsIn := fun _ _ => Err "connection refused"
|}.

(** A disk holding the list of an earlier turn. *)
Definition oldDisk : gmap string string :=
  <[nodesFile defaultFlags := "10.0.0.3:8107:8108"]> ∅.

Definition downNotification : Notification :=
  {| cluster := clusterDown; fsWrite := WriteOk |}.

(** A host whose API calls succeed: [env] is the value of
    [INITIAL_NODELIST], [addrs] the interface addresses, [bw] what the
    seeding write meets, [chan] what the watcher delivers. *)
Definition hostWith (env : option string) (addrs : list Addr)
    (bw : WriteOutcome) (chan : list Notification) : Host := {|
  kubeconfigAbsent := true;
  inClusterConfig := Ok InClusterCfg;
  buildConfigFromFlags := Err "stat ~/.kube/config: no such file or directory";
  newForConfig := fun c => Ok (ClientsetFor c);
  watchEndpoints := fun _ => Ok {| ResultChan := chan |};
  lookupEnv := fun v => if String.eqb v "INITIAL_NODELIST" then env else None;
  interfaceAddrs := Ok addrs;
  bootstrapWrite := bw
|}.

(** 127.0.0.1/8, ::1/128 and 10.0.0.9/24. *)
Definition lo4 : Addr :=
  IPNet [Byte.x7f; Byte.x00; Byte.x00; Byte.x01]
        [Byte.xff; Byte.x00; Byte.x00; Byte.x00].
Definition lo6 : Addr :=
  IPNet (repeat Byte.x00 15 ++ [Byte.x01]) (repeat Byte.xff 16).
Definition eth0 : Addr :=
  IPNet [Byte.x0a; Byte.x00; Byte.x00; Byte.x09]
        [Byte.xff; Byte.xff; Byte.xff; Byte.x00].

(** The service [ts] with one ready address, 10.0.0.3. *)
Definition clusterReady : Cluster := {|
  endpointsIn := fun _ =>
    Ok [ {| Name := "ts";
            Subsets := [ {| Addresses := [ {| IP := "10.0.0.3" |} ];
                            NotReadyAddresses := [] |} ] |} ];
  podsIn := fun _ _ => Ok []
|}.

Definition seed2 : string := "10.0.0.1:8107:8108,10.0.0.2:8107:8108".

Definition customPorts : Flags := {|
  appSelector := appSelector defaultFlags;
  namespace := namespace defaultFlags;
  nodesFile := nodesFile defaultFlags;
  service := service defaultFlags;
  apiPort := 9108;
  peerPort := 9107
|}.

(** A host outside any cluster and without a kubeconfig. *)
Definition hostNoConfig : Host := {|
  kubeconfigAbsent := true;
  inClusterConfig :=
    Err "unable to load in-cluster configuration";
  buildConfigFromFlags := Err "stat ~/.kube/config: no such file or directory";
  newForConfig := fun c => Ok (ClientsetFor c);
  watchEndpoints := fun _ => Ok {| ResultChan := [] |};
  lookupEnv := fun _ => None;
  interfaceAddrs := Ok [lo4; eth0];
  bootstrapWrite := WriteOk
|}.

(** A host whose API server refuses the watch. *)
Definition hostNoWatch : Host := {|
  kubeconfigAbsent := true;
  inClusterConfig := Ok InClusterCfg;
  buildConfigFromFlags := Err "stat ~/.kube/config: no such file or directory";
  newForConfig := fun c => Ok (ClientsetFor c);
  watchEndpoints := fun _ => Err "endpoints is forbidden";
  lookupEnv := fun _ => None;
  interfaceAddrs := Ok [lo4; eth0];
  bootstrapWrite := WriteOk
|}.

(** A host on which the client cannot be built. *)
Definition hostNoClient : Host := {|
  kubeconfigAbsent := true;
  inClusterConfig := Ok InClusterCfg;
  buildConfigFromFlags := Err "stat ~/.kube/config: no such file or directory";
  newForConfig := fun _ => Err "invalid configuration";
  watchEndpoints := fun _ => Ok {| ResultChan := [] |};
  lookupEnv := fun _ => None;
  interfaceAddrs := Ok [lo4; eth0];
  bootstrapWrite := WriteOk
|}.

(** Two items; the second is the service, with two subsets. *)
Definition itemsTwoSubsets : list Endpoints :=
  [ {| Name := "kubernetes";
       Subsets := [ {| Addresses := [ {| IP := "10.96.0.1" |} ];
                       NotReadyAddresses := [] |} ] |};
    {| Name := "ts";
       Subsets := [ {| Addresses := [ {| IP := "10.0.0.1" |};
                                      {| IP := "10.0.0.2" |} ];
                       NotReadyAddresses := [ {| IP := "10.0.0.7" |} ] |};
                    {| Addresses := [ {| IP := "10.0.0.3" |} ];
                       NotReadyAddresses := [] |} ] |} ].

Definition clusterThree : Cluster := {|
  endpointsIn := fun _ => Ok itemsTwoSubsets;
  podsIn := fun _ _ => Ok []
|}.

Definition readyNotification : Notification :=
  {| cluster := clusterReady; fsWrite := WriteOk |}.

Definition diskFullNotification : Notification :=
  {| cluster := clusterReady;
     fsWrite := WriteFails "no space left on device" 5 |}.

(** Interfaces in the order lo, a global IPv6 address, 10.0.0.9 and
    192.168.1.5; the second entry is no [*net.IPNet]. *)
Definition manyAddrs : list Addr :=
  [ lo4;
    IPAddr [Byte.x0a; Byte.x00; Byte.x00; Byte.x07];
    lo6;
    IPNet ([Byte.x20; Byte.x01; Byte.x0d; Byte.xb8] ++ repeat Byte.x00 11
             ++ [Byte.x01]) (repeat Byte.xff 8 ++ repeat Byte.x00 8);
    eth0;
    IPNet [Byte.xc0; Byte.xa8; Byte.x01; Byte.x05]
          [Byte.xff; Byte.xff; Byte.xff; Byte.x00] ].

(** A host whose interfaces cannot be listed, with the variable set. *)
Definition hostNoInterfaces : Host := {|
  kubeconfigAbsent := false;
  inClusterConfig := Err "unable to load in-cluster configuration";
  buildConfigFromFlags := Ok KubeconfigCfg;
  newForConfig := fun c => Ok (ClientsetFor c);
  watchEndpoints := fun _ => Ok {| ResultChan := [readyNotification] |};
  lookupEnv := fun _ => Some seed2;
  interfaceAddrs := Err "route ip+net: netlinkrib: permission denied";
  bootstrapWrite := WriteOk
|}.

(** A cluster at cold start: the service has no ready address yet, and of
    the two pods under the selector one has no IP assigned. *)
Definition clusterColdStart : Cluster := {|
  endpointsIn := fun _ => Ok [ {| Name := "ts"; Subsets := [] |} ];
  podsIn := fun _ _ =>
    Ok [ {| PodIP := "10.0.0.4"; PodReady := false |};
         {| PodIP := ""; PodReady := false |} ]
|}.

(** A host whose API server refuses the watch, with the variable set. *)
Definition hostNoWatchSeeded : Host := {|
  kubeconfigAbsent := true;
  inClusterConfig := Ok InClusterCfg;
  buildConfigFromFlags := Err "stat ~/.kube/config: no such file or directory";
  newForConfig := fun c => Ok (ClientsetFor c);
  watchEndpoints := fun _ => Err "endpoints is forbidden";
  lookupEnv := fun _ => Some seed2;
  interfaceAddrs := Ok [lo4; eth0];
  bootstrapWrite := WriteOk
|}.

(** The items of [itemsTwoSubsets] with the service named differently. *)
Definition clusterOtherService : Cluster := {|
  endpointsIn := fun _ =>
    Ok [ {| Name := "kubernetes";
            Subsets := [ {| Addresses := [ {| IP := "10.96.0.1" |} ];
                            NotReadyAddresses := [] |} ] |};
         {| Name := "TS";
            Subsets := [ {| Addresses := [ {| IP := "10.0.0.1" |} ];
                            NotReadyAddresses := [] |} ] |} ];
  podsIn := fun _ _ => Ok []
|}.

(** * Properties *)

(** ** The monad *)

Lemma bind_running {A B} (m : Go A) (k : A -> Go B) d a :
  status (m d) = Running a ->
  (m ≫= k) d =
  MkRun (status (k a (disk (m d)))) (disk (k a (disk (m d))))
        (events (m d) ++ events (k a (disk (m d)))).
Proof.
  intros H. unfold mbind, Go_bind, bind. cbv zeta. now rewrite H.
Qed.

Lemma bind_exited {A B} (m : Go A) (k : A -> Go B) d c :
  status (m d) = Exited c ->
  (m ≫= k) d = MkRun (Exited c) (disk (m d)) (events (m d)).
Proof.
  intros H. unfold mbind, Go_bind, bind. cbv zeta. now rewrite H.
Qed.

(** Unfolds the monad down to records. *)
Ltac go_unfold :=
  unfold mbind, mret, Go_bind, Go_ret, bind, ret, deref, panic,
    logPrintf, logFatalf, emit in *.

Lemma osWriteFile_status path data o d :
  status (osWriteFile path data o d) = Running (writeError o).
Proof. now destruct o. Qed.

Lemma osWriteFile_events path data o d :
  events (osWriteFile path data o d) = [WriteFile path data o].
Proof. now destruct o. Qed.

Lemma osWriteFile_ok path data d :
  disk (osWriteFile path data WriteOk d) !! path = Some data.
Proof. cbn. apply lookup_insert_eq. Qed.

(** ** The endpoint scan *)

Section Scan.
Context {A : Type} (g : A -> string).

Lemma fold_append (l : list A) (acc : list string) :
  fold_left (fun nodes a => nodes ++ [g a]) l acc = acc ++ map g l.
Proof.
  revert acc. induction l as [|a l IH]; intros acc; cbn.
  - now rewrite app_nil_r.
  - rewrite IH. now rewrite <- app_assoc.
Qed.

End Scan.

Lemma fold_subsets (g : EndpointAddress -> string)
    (ss : list EndpointSubset) (acc : list string) :
  fold_left (fun nodes s =>
    fold_left (fun nodes a => nodes ++ [g a]) (Addresses s) nodes) ss acc
  = acc ++ map g (flat_map Addresses ss).
Proof.
  revert acc. induction ss as [|s ss IH]; intros acc; cbn.
  - now rewrite app_nil_r.
  - rewrite IH, fold_append, map_app. now rewrite <- app_assoc.
Qed.

Lemma scanEndpoints_spec f items acc :
  scanEndpoints f items acc = acc ++ map (entryOf f) (serviceAddresses f items).
Proof.
  unfold scanEndpoints, serviceAddresses.
  revert acc. induction items as [|e items IH]; intros acc; cbn.
  - now rewrite app_nil_r.
  - destruct (String.eqb (Name e) (service f)); cbn.
    + rewrite IH.
      change (fun nodes a => nodes ++ [nodeEntry (IP a) (peerPort f) (apiPort f)])
        with (fun nodes a => nodes ++ [entryOf f a]).
      rewrite fold_subsets, map_app. now rewrite <- app_assoc.
    + apply IH.
Qed.

(** ** Separators *)

Lemma count_app c s t : count c (s +:+ t) = count c s + count c t.
Proof. induction s as [|x s IH]; simpl; [reflexivity | rewrite IH; lia]. Qed.

Lemma count_uint c d : isSep c -> count c (NilEmpty.string_of_uint d) = 0.
Proof.
  intros [-> | ->]; induction d; cbn; auto.
Qed.

Lemma count_itoa c n : isSep c -> count c (itoa n) = 0.
Proof.
  intros H. unfold itoa.
  destruct (Z.to_int n) as [u|u]; cbn.
  - destruct u; try (destruct H as [-> | ->]; reflexivity);
      apply (count_uint c _ H).
  - destruct H as [-> | ->]; cbn;
      (destruct u; try reflexivity;
       first [apply (count_uint ":"%char) | apply (count_uint ","%char)];
       unfold isSep; auto).
Qed.

Lemma count_nodeEntry_colon ip peer api :
  count ":" (nodeEntry ip peer api) = count ":" ip + 2.
Proof.
  unfold nodeEntry. rewrite !count_app.
  rewrite !(count_itoa ":") by (left; reflexivity). cbn. lia.
Qed.

Lemma count_nodeEntry_comma ip peer api :
  count "," (nodeEntry ip peer api) = count "," ip.
Proof.
  unfold nodeEntry. rewrite !count_app.
  rewrite !(count_itoa ",") by (right; reflexivity). cbn. lia.
Qed.

Lemma nodeEntry_nonempty ip peer api : nodeEntry ip peer api <> "".
Proof.
  intros H. pose proof (count_nodeEntry_colon ip peer api) as C.
  rewrite H in C. cbn in C. lia.
Qed.

Lemma Join_cons x y l sep :
  Join (x :: y :: l) sep = x +:+ sep +:+ Join (y :: l) sep.
Proof. reflexivity. Qed.

Lemma count_Join_comma (l : list string) :
  Forall (fun e => count "," e = 0) l ->
  count "," (Join l ",") = pred (length l).
Proof.
  induction l as [|x [|y l] IH]; intros H.
  - reflexivity.
  - cbn. now inversion H.
  - rewrite Join_cons, !count_app.
    inversion H as [|? ? Hx Hl]; subst.
    rewrite Hx, (IH Hl). cbn. lia.
Qed.

Lemma Join_nonempty (l : list string) sep :
  Forall (fun e => e <> "") l -> l <> [] -> Join l sep <> "".
Proof.
  destruct l as [|x [|y l]]; intros H Hne; [congruence | |].
  - cbn. now inversion H.
  - rewrite Join_cons. inversion H as [|? ? Hx _]; subst.
    destruct x; [congruence | discriminate].
Qed.

(** ** What the two resolvers return *)

Lemma Bootstrap_getNodes_ok f clients cl d items :
  endpointsIn cl (namespace f) = Ok items ->
  Bootstrap.getNodes f clients cl d =
  MkRun (Running (Join (map (entryOf f) (serviceAddresses f items)) ","))
        d [ListEndpoints (namespace f)].
Proof.
  intros H. unfold Bootstrap.getNodes, listEndpoints. go_unfold. cbn.
  rewrite H. cbn. now rewrite scanEndpoints_spec.
Qed.

Lemma Bootstrap_getNodes_err f clients cl d e :
  endpointsIn cl (namespace f) = Err e ->
  Bootstrap.getNodes f clients cl d =
  MkRun (Running "") d
        [ListEndpoints (namespace f);
         Printf ("failed to list endpoints: " +:+ e +:+ nl)].
Proof.
  intros H. unfold Bootstrap.getNodes, listEndpoints. go_unfold. cbn.
  now rewrite H.
Qed.

Lemma Fallback_getNodes_err f clients cl d e :
  endpointsIn cl (namespace f) = Err e ->
  Fallback.getNodes f clients cl d =
  MkRun (Running "") d
        [ListEndpoints (namespace f);
         Printf ("failed to list endpoints: " +:+ e +:+ nl)].
Proof.
  intros H. unfold Fallback.getNodes, listEndpoints. go_unfold. cbn.
  now rewrite H.
Qed.

Lemma Fallback_getNodes_ready f clients cl d items :
  endpointsIn cl (namespace f) = Ok items ->
  serviceAddresses f items <> [] ->
  Fallback.getNodes f clients cl d =
  MkRun (Running (Join (map (entryOf f) (serviceAddresses f items)) ","))
        d [ListEndpoints (namespace f)].
Proof.
  intros H Hne. unfold Fallback.getNodes, listEndpoints. go_unfold. cbn.
  rewrite H. cbn. rewrite scanEndpoints_spec. cbn.
  destruct (serviceAddresses f items); [congruence | reflexivity].
Qed.

Lemma Fallback_getNodes_pods f clients cl d items pods :
  endpointsIn cl (namespace f) = Ok items ->
  serviceAddresses f items = [] ->
  podsIn cl (namespace f) (appSelector f) = Ok pods ->
  Fallback.getNodes f clients cl d =
  MkRun (Running (Join (map (podEntry f) pods) ","))
        d [ListEndpoints (namespace f);
           ListPods (namespace f) (appSelector f)].
Proof.
  intros H He Hp. unfold Fallback.getNodes, listEndpoints, listPods.
  go_unfold. cbn. rewrite H. cbn. rewrite scanEndpoints_spec, He. cbn.
  rewrite Hp. cbn.
  change (fun nodes pod => nodes ++ [nodeEntry (PodIP pod) (peerPort f) (apiPort f)])
    with (fun nodes pod => nodes ++ [podEntry f pod]).
  now rewrite fold_append.
Qed.

Lemma Fallback_getNodes_pods_err f clients cl d items e :
  endpointsIn cl (namespace f) = Ok items ->
  serviceAddresses f items = [] ->
  podsIn cl (namespace f) (appSelector f) = Err e ->
  Fallback.getNodes f clients cl d =
  MkRun (Running "") d
        [ListEndpoints (namespace f);
         ListPods (namespace f) (appSelector f);
         Printf ("failed to list pods: " +:+ e +:+ nl)].
Proof.
  intros H He Hp. unfold Fallback.getNodes, listEndpoints, listPods.
  go_unfold. cbn. rewrite H. cbn. rewrite scanEndpoints_spec, He. cbn.
  now rewrite Hp.
Qed.

(** C9: when the endpoint listing succeeds, the scan collects exactly one
    entry per ready address of the configured service, each of the form
    [ip:peerPort:apiPort], in iteration order (items, then subsets, then
    addresses); the bootstrap resolver returns these entries joined by a
    comma, and so does the fallback resolver whenever there is an address.
    For host parts free of separators every entry holds exactly two colons
    and no comma, and the joined list holds one comma between neighbours. *)
Theorem C9_entries_in_source_order f clients cl d items :
  endpointsIn cl (namespace f) = Ok items ->
  let addrs := serviceAddresses f items in
  let nodes := scanEndpoints f items [] in
  nodes = map (fun a => IP a +:+ ":" +:+ itoa (peerPort f)
                             +:+ ":" +:+ itoa (apiPort f)) addrs /\
  length nodes = length addrs /\
  status (Bootstrap.getNodes f clients cl d) = Running (Join nodes ",") /\
  (addrs <> [] ->
   status (Fallback.getNodes f clients cl d) = Running (Join nodes ",")) /\
  (Forall plainIP addrs ->
   Forall (fun e => count ":" e = 2 /\ count "," e = 0) nodes /\
   count "," (Join nodes ",") = pred (length addrs)).
Proof.
  intros H addrs nodes.
  assert (Hn : nodes = map (entryOf f) addrs)
    by (unfold nodes; now rewrite scanEndpoints_spec).
  assert (Hplain : Forall plainIP addrs ->
    Forall (fun e => count ":" e = 2 /\ count "," e = 0) nodes).
  { intros Hp. rewrite Hn. apply List.Forall_map.
    eapply List.Forall_impl; [|exact Hp]. intros a [Hc Hm]. unfold entryOf.
    rewrite count_nodeEntry_colon, count_nodeEntry_comma. lia. }
  refine (conj Hn (conj _ (conj _ (conj _ _)))).
  - rewrite Hn. apply length_map.
  - rewrite (Bootstrap_getNodes_ok _ _ _ _ _ H), Hn. reflexivity.
  - intros Hne. rewrite (Fallback_getNodes_ready _ _ _ _ _ H Hne), Hn.
    reflexivity.
  - intros Hp. split; [auto|]. rewrite count_Join_comma.
    + now rewrite Hn, length_map.
    + eapply List.Forall_impl; [|exact (Hplain Hp)]. now intros e [_ ?].
Qed.

(** Both resolvers always return: with a string, the disk untouched. *)
Lemma Bootstrap_getNodes_returns f clients cl d :
  exists nodes evs,
    Bootstrap.getNodes f clients cl d = MkRun (Running nodes) d evs /\
    writes evs = [].
Proof.
  destruct (endpointsIn cl (namespace f)) as [items|e] eqn:H.
  - rewrite (Bootstrap_getNodes_ok _ _ _ _ _ H). eauto.
  - rewrite (Bootstrap_getNodes_err _ _ _ _ _ H). eauto.
Qed.

Lemma Fallback_getNodes_returns f clients cl d :
  exists nodes evs,
    Fallback.getNodes f clients cl d = MkRun (Running nodes) d evs /\
    writes evs = [].
Proof.
  destruct (endpointsIn cl (namespace f)) as [items|e] eqn:H.
  - destruct (serviceAddresses f items) as [|a l] eqn:He.
    + destruct (podsIn cl (namespace f) (appSelector f)) as [pods|e] eqn:Hp.
      * rewrite (Fallback_getNodes_pods _ _ _ _ _ _ H He Hp). eauto.
      * rewrite (Fallback_getNodes_pods_err _ _ _ _ _ _ H He Hp). eauto.
    + rewrite (Fallback_getNodes_ready _ _ _ _ _ H) by (rewrite He; discriminate).
      eauto.
  - rewrite (Fallback_getNodes_err _ _ _ _ _ H). eauto.
Qed.

(** ** One turn of the watch loops *)

Lemma Fallback_onNotification_run f clients n d nodes evs :
  Fallback.getNodes f clients (cluster n) d = MkRun (Running nodes) d evs ->
  Fallback.onNotification f clients n d =
  MkRun (Running tt)
        (disk (osWriteFile (nodesFile f) nodes (fsWrite n) d))
        (evs ++ [WriteFile (nodesFile f) nodes (fsWrite n)]
             ++ writeLog (fsWrite n)).
Proof.
  intros H. unfold Fallback.onNotification, mbind, Go_bind, bind.
  cbv zeta. rewrite H. unfold writeLog.
  destruct (fsWrite n); reflexivity.
Qed.

Lemma Bootstrap_onNotification_empty f clients thisNode n d evs :
  Bootstrap.getNodes f clients (cluster n) d = MkRun (Running "") d evs ->
  Bootstrap.onNotification f clients thisNode n d = MkRun (Running tt) d evs.
Proof.
  intros H. unfold Bootstrap.onNotification, mbind, Go_bind, bind.
  cbv zeta. rewrite H. cbn. now rewrite app_nil_r.
Qed.

Lemma Bootstrap_onNotification_found f clients thisNode n d nodes evs :
  Bootstrap.getNodes f clients (cluster n) d = MkRun (Running nodes) d evs ->
  nodes <> "" ->
  Bootstrap.onNotification f clients thisNode n d =
  MkRun (Running tt)
        (disk (osWriteFile (nodesFile f) (nodes +:+ "," +:+ thisNode)
                           (fsWrite n) d))
        (evs ++ [Printf ("found nodes (and added self): "
                         +:+ (nodes +:+ "," +:+ thisNode) +:+ nl);
                 WriteFile (nodesFile f) (nodes +:+ "," +:+ thisNode)
                           (fsWrite n)]
             ++ writeLog (fsWrite n)).
Proof.
  intros H Hne. unfold Bootstrap.onNotification, mbind, Go_bind, bind.
  cbv zeta. rewrite H. destruct nodes as [|c nodes]; [congruence|].
  unfold writeLog. destruct (fsWrite n); reflexivity.
Qed.

(** No turn of either loop exits or panics. *)
Lemma Fallback_onNotification_running f clients n d :
  status (Fallback.onNotification f clients n d) = Running tt.
Proof.
  destruct (Fallback_getNodes_returns f clients (cluster n) d)
    as (nodes & evs & H & _).
  now rewrite (Fallback_onNotification_run _ _ _ _ _ _ H).
Qed.

Lemma Bootstrap_onNotification_running f clients thisNode n d :
  status (Bootstrap.onNotification f clients thisNode n d) = Running tt.
Proof.
  destruct (Bootstrap_getNodes_returns f clients (cluster n) d)
    as (nodes & evs & H & _).
  destruct (string_dec nodes "") as [->|Hne].
  - now rewrite (Bootstrap_onNotification_empty _ _ _ _ _ _ H).
  - now rewrite (Bootstrap_onNotification_found _ _ _ _ _ _ _ H Hne).
Qed.

(** A loop whose body keeps running handles the next notification from the
    disk the body left. *)
Lemma forRange_next {A} (body : A -> Go unit) x rest d :
  status (body x d) = Running tt ->
  forRange (x :: rest) body d =
  let r := body x d in
  let r' := forRange rest body (disk r) in
  MkRun (status r') (disk r') (events r ++ events r').
Proof.
  intros H. cbn [forRange]. now rewrite (bind_running _ _ _ _ H).
Qed.

Lemma forRange_running {A} (body : A -> Go unit) xs :
  (forall x d, status (body x d) = Running tt) ->
  forall d, status (forRange xs body d) = Running tt.
Proof.
  intros Hb. induction xs as [|x xs IH]; intros d.
  - reflexivity.
  - rewrite (forRange_next _ _ _ _ (Hb x d)). cbn. apply IH.
Qed.

Lemma writes_app evs evs' : writes (evs ++ evs') = writes evs ++ writes evs'.
Proof. apply List.filter_app. Qed.

Lemma writes_writeLog o : writes (writeLog o) = [].
Proof. unfold writeLog. now destruct (writeError o). Qed.



(** The bootstrap resolver returns the empty string exactly when the
    listing fails or the service has no ready address. *)
Lemma Bootstrap_getNodes_empty_iff f clients cl d :
  status (Bootstrap.getNodes f clients cl d) = Running "" <->
  (exists e, endpointsIn cl (namespace f) = Err e) \/
  (exists items, endpointsIn cl (namespace f) = Ok items /\
                 serviceAddresses f items = []).
Proof.
  destruct (endpointsIn cl (namespace f)) as [items|e] eqn:H.
  - rewrite (Bootstrap_getNodes_ok _ _ _ _ _ H). cbn [status]. split.
    + intros Hs. right. exists items. split; [reflexivity|].
      destruct (serviceAddresses f items) as [|a l]; [reflexivity|].
      exfalso.
      assert (Hj : Join (map (entryOf f) (a :: l)) "," = "") by congruence.
      revert Hj. apply Join_nonempty.
      * apply List.Forall_map, List.Forall_forall. intros x _.
        apply nodeEntry_nonempty.
      * discriminate.
    + intros [[e He]|(items' & Hi & He)]; [discriminate|].
      inversion Hi; subst. now rewrite He.
  - rewrite (Bootstrap_getNodes_err _ _ _ _ _ H). cbn [status]. split; eauto.
Qed.

(** ** The pod fallback of [main.go] *)

(** C6: in [main.go] the resolver lists the pods if and only if the endpoint
    listing succeeded and the scan found no address; it lists them at most
    once, in the configured namespace under the configured selector; when
    the pod listing answers, the result holds the entry of every listed pod,
    whatever its readiness; and with at least one ready address the only
    API call is the endpoint listing. *)
Theorem C6_pod_fallback_iff_scan_empty f clients cl d :
  let r := Fallback.getNodes f clients cl d in
  (existsb isListPods (events r) = true <-> scanFoundNothing f cl) /\
  (scanFoundNothing f cl ->
   List.filter isListPods (events r)
     = [ListPods (namespace f) (appSelector f)]) /\
  (forall pods,
     scanFoundNothing f cl ->
     podsIn cl (namespace f) (appSelector f) = Ok pods ->
     status r =
       Running (Join (map (fun p => nodeEntry (PodIP p) (peerPort f) (apiPort f))
                          pods) ",")) /\
  (forall items,
     endpointsIn cl (namespace f) = Ok items ->
     serviceAddresses f items <> [] ->
     events r = [ListEndpoints (namespace f)]).
Proof.
  cbv zeta. unfold scanFoundNothing.
  destruct (endpointsIn cl (namespace f)) as [items|e] eqn:H.
  - destruct (serviceAddresses f items) as [|a l] eqn:He.
    + assert (Hs : exists items0, Ok items = Ok items0 /\
                     serviceAddresses f items0 = []) by eauto.
      destruct (podsIn cl (namespace f) (appSelector f)) as [pods|e] eqn:Hp.
      * rewrite (Fallback_getNodes_pods _ _ _ _ _ _ H He Hp).
        cbn [events status existsb isListPods List.filter orb].
        refine (conj _ (conj _ (conj _ _))).
        -- split; auto.
        -- reflexivity.
        -- intros pods' _ Hp'. now inversion Hp'.
        -- intros items' Hi Hne. inversion Hi; subst. congruence.
      * rewrite (Fallback_getNodes_pods_err _ _ _ _ _ _ H He Hp).
        cbn [events status existsb isListPods List.filter orb].
        refine (conj _ (conj _ (conj _ _))).
        -- split; auto.
        -- reflexivity.
        -- intros pods' _ Hp'. discriminate.
        -- intros items' Hi Hne. inversion Hi; subst. congruence.
    + assert (Hne : serviceAddresses f items <> [])
        by (rewrite He; discriminate).
      assert (Hs : ~ exists items0, Ok items = Ok items0 /\
                     serviceAddresses f items0 = []).
      { intros (items' & Hi & He'). inversion Hi; subst. congruence. }
      rewrite (Fallback_getNodes_ready _ _ _ _ _ H Hne).
      cbn [events status existsb isListPods List.filter orb].
      refine (conj _ (conj _ (conj _ _))).
      * split; [discriminate | intros Hx; destruct (Hs Hx)].
      * intros Hx; destruct (Hs Hx).
      * intros pods Hx; destruct (Hs Hx).
      * reflexivity.
  - assert (Hs : ~ exists items0, @Err (list Endpoints) e = Ok items0 /\
                   serviceAddresses f items0 = []).
    { intros (items' & Hi & _). discriminate. }
    rewrite (Fallback_getNodes_err _ _ _ _ _ H).
    cbn [events status existsb isListPods List.filter orb].
    refine (conj _ (conj _ (conj _ _))).
    + split; [discriminate | intros Hx; destruct (Hs Hx)].
    + intros Hx; destruct (Hs Hx).
    + intros pods Hx; destruct (Hs Hx).
    + intros items' Hi. discriminate.
Qed.

(** Readiness plays no part in the fallback: two listings with the same
    pod IPs give the same result. *)
Lemma podEntry_ignores_readiness f pods pods' :
  map PodIP pods = map PodIP pods' ->
  map (podEntry f) pods = map (podEntry f) pods'.
Proof.
  intros H.
  pose (g := fun ip => nodeEntry ip (peerPort f) (apiPort f)).
  change (map (fun p => g (PodIP p)) pods = map (fun p => g (PodIP p)) pods').
  rewrite <- (List.map_map PodIP g pods), <- (List.map_map PodIP g pods').
  now rewrite H.
Qed.

(** ** API errors *)

(** C7: when the endpoint listing fails, both resolvers log the failure and
    return the empty string; when the pod listing of the fallback path
    fails, the resolver of [main.go] does the same.  The turn of the loop
    ends running, and the loop handles the remaining notifications. *)
Theorem C7_api_error_turn_is_survived f clients thisNode n rest d e :
  (endpointListFails f (cluster n) e ->
   let log := [ListEndpoints (namespace f);
               Printf ("failed to list endpoints: " +:+ e +:+ nl)] in
   Bootstrap.getNodes f clients (cluster n) d = MkRun (Running "") d log /\
   Fallback.getNodes f clients (cluster n) d = MkRun (Running "") d log /\
   Bootstrap.onNotification f clients thisNode n d = MkRun (Running tt) d log /\
   forRange (n :: rest) (Bootstrap.onNotification f clients thisNode) d =
     andThen (MkRun (Running tt) d log)
             (forRange rest (Bootstrap.onNotification f clients thisNode))) /\
  (podListFails f (cluster n) e ->
   Fallback.getNodes f clients (cluster n) d =
     MkRun (Running "") d
           [ListEndpoints (namespace f);
            ListPods (namespace f) (appSelector f);
            Printf ("failed to list pods: " +:+ e +:+ nl)]) /\
  (endpointListFails f (cluster n) e \/ podListFails f (cluster n) e ->
   status (Fallback.getNodes f clients (cluster n) d) = Running "" /\
   status (Fallback.onNotification f clients n d) = Running tt /\
   forRange (n :: rest) (Fallback.onNotification f clients) d =
     andThen (Fallback.onNotification f clients n d)
             (forRange rest (Fallback.onNotification f clients))).
Proof.
  assert (Hloop :
    forRange (n :: rest) (Fallback.onNotification f clients) d =
    andThen (Fallback.onNotification f clients n d)
            (forRange rest (Fallback.onNotification f clients))).
  { rewrite forRange_next by apply Fallback_onNotification_running.
    reflexivity. }
  refine (conj _ (conj _ _)).
  - intros H log. unfold endpointListFails in H.
    pose proof (Bootstrap_getNodes_err f clients _ d _ H) as Hb.
    pose proof (Bootstrap_onNotification_empty f clients thisNode _ _ _ Hb)
      as Ht.
    refine (conj Hb (conj _ (conj Ht _))).
    + exact (Fallback_getNodes_err f clients _ d _ H).
    + rewrite forRange_next by (now rewrite Ht). now rewrite Ht.
  - intros [(items & Hi & He) Hp].
    exact (Fallback_getNodes_pods_err _ _ _ _ _ _ Hi He Hp).
  - intros H. refine (conj _ (conj _ Hloop)).
    + destruct H as [H | [(items & Hi & He) Hp]].
      * now rewrite (Fallback_getNodes_err f clients _ d _ H).
      * now rewrite (Fallback_getNodes_pods_err _ _ _ _ _ _ Hi He Hp).
    + apply Fallback_onNotification_running.
Qed.

(** ** Startup of the program with the self address *)

Lemma quiet_ret {A} (a : A) : quiet (mret a).
Proof. intros d. now split. Qed.

Lemma quiet_bind {A B} (m : Go A) (k : A -> Go B) :
  quiet m -> (forall a, quiet (k a)) -> quiet (m ≫= k).
Proof.
  intros Hm Hk d. destruct (Hm d) as [Hd Hw].
  unfold mbind, Go_bind, bind. cbv zeta.
  destruct (status (m d)) as [a| |]; cbn [disk events]; [|now split..].
  destruct (Hk a (disk (m d))) as [Hd' Hw'].
  unfold writes in *. rewrite List.filter_app, Hw, Hw', Hd', Hd.
  now split.
Qed.

Lemma quiet_emit e : isWrite e = false -> quiet (emit e).
Proof. intros H d. unfold emit, writes. cbn. now rewrite H. Qed.

Lemma quiet_logFatalf {A} msg : quiet (@logFatalf A msg).
Proof. intros d. now split. Qed.

Lemma quiet_deref {A} (p : option A) : quiet (deref p).
Proof. intros d. destruct p; now split. Qed.

(** Splits a [quiet] goal along the structure of the program. *)
Ltac quiet_steps :=
  repeat first
    [ apply quiet_ret
    | apply quiet_logFatalf
    | apply quiet_deref
    | apply quiet_emit; reflexivity
    | apply quiet_bind; [|intros]
    | match goal with
      | |- quiet (if ?b then _ else _) => destruct b
      | |- quiet (match ?x with _ => _ end) => destruct x
      end ].

(** [connect] touches no file. *)
Lemma Bootstrap_connect_quiet f h d :
  disk (Bootstrap.connect f h d) = d /\
  writes (events (Bootstrap.connect f h d)) = [].
Proof.
  revert d. change (quiet (Bootstrap.connect f h)).
  unfold Bootstrap.connect, kubernetesNewForConfig, watchCall, logPrintf.
  quiet_steps.
Qed.

(** What the seeding block does when the variable is set. *)
Lemma Bootstrap_bootstrap_seeded f h d seed addrs :
  lookupEnv h Bootstrap.bootstrapVar = Some seed ->
  interfaceAddrs h = Ok addrs ->
  let thisNode := nodeEntry (Bootstrap.firstIPv4 addrs) 8107 8108 in
  let flattenedNodes := seed +:+ "," +:+ thisNode in
  let w := osWriteFile (nodesFile f) flattenedNodes (bootstrapWrite h) d in
  let log :=
    [Printf ("Bootstrapping cluster with initial node list: "
             +:+ flattenedNodes);
     WriteFile (nodesFile f) flattenedNodes (bootstrapWrite h)] in
  Bootstrap.bootstrap f h d =
  match writeError (bootstrapWrite h) with
  | None => MkRun (Running thisNode) (disk w) log
  | Some e =>
      MkRun (Exited 1) (disk w)
            (log ++ [Fatalf ("failed to write node list: " +:+ e +:+ nl)])
  end.
Proof.
  intros Henv Haddrs. cbv zeta.
  unfold Bootstrap.bootstrap, Bootstrap.getCurrentIP. rewrite Henv, Haddrs.
  go_unfold. destruct (bootstrapWrite h); reflexivity.
Qed.

(** Without the variable the block writes nothing. *)
Lemma Bootstrap_bootstrap_unseeded f h d addrs :
  lookupEnv h Bootstrap.bootstrapVar = None ->
  interfaceAddrs h = Ok addrs ->
  Bootstrap.bootstrap f h d =
  MkRun (Running (nodeEntry (Bootstrap.firstIPv4 addrs) 8107 8108)) d [].
Proof.
  intros Henv Haddrs.
  unfold Bootstrap.bootstrap, Bootstrap.getCurrentIP. rewrite Henv, Haddrs.
  reflexivity.
Qed.

(** [main] is its three blocks in sequence. *)
Lemma Bootstrap_main_blocks f h d clients watcher thisNode :
  status (Bootstrap.connect f h d) = Running (clients, watcher) ->
  status (Bootstrap.bootstrap f h d) = Running thisNode ->
  let seeding := Bootstrap.bootstrap f h d in
  let loop := Bootstrap.watchLoop f clients watcher thisNode (disk seeding) in
  Bootstrap.main f h d =
  MkRun (status loop) (disk loop)
        (events (Bootstrap.connect f h d) ++ events seeding ++ events loop).
Proof.
  intros Hc Hb. cbv zeta. unfold Bootstrap.main.
  rewrite (bind_running _ _ _ _ Hc).
  destruct (Bootstrap_connect_quiet f h d) as [Hd _]. rewrite Hd.
  rewrite (bind_running _ _ _ _ Hb). reflexivity.
Qed.

(** C4: with the seed [10.0.0.1:8107:8108,10.0.0.2:8107:8108] in
    [INITIAL_NODELIST] and the self address 10.0.0.9, startup makes exactly
    one write, of the seed joined with the self entry by a comma; when it
    succeeds the file holds that content, and every write of the watch loop
    comes after it. *)
Theorem C4_bootstrap_seed_then_watch f h d clients watcher addrs :
  status (Bootstrap.connect f h d) = Running (clients, watcher) ->
  lookupEnv h "INITIAL_NODELIST" = Some "10.0.0.1:8107:8108,10.0.0.2:8107:8108" ->
  interfaceAddrs h = Ok addrs ->
  Bootstrap.firstIPv4 addrs = "10.0.0.9" ->
  bootstrapWrite h = WriteOk ->
  let content := "10.0.0.1:8107:8108,10.0.0.2:8107:8108,10.0.0.9:8107:8108" in
  let seeding := Bootstrap.bootstrap f h d in
  let loop :=
    Bootstrap.watchLoop f clients watcher "10.0.0.9:8107:8108" (disk seeding) in
  writes (events (Bootstrap.connect f h d)) = [] /\
  writes (events seeding) = [WriteFile (nodesFile f) content WriteOk] /\
  disk seeding !! nodesFile f = Some content /\
  events (Bootstrap.main f h d) =
    events (Bootstrap.connect f h d) ++ events seeding ++ events loop /\
  writes (events (Bootstrap.main f h d)) =
    WriteFile (nodesFile f) content WriteOk :: writes (events loop).
Proof.
  intros Hc Henv Haddrs Hip Hw. cbv zeta.
  pose proof (Bootstrap_bootstrap_seeded f h d _ _ Henv Haddrs) as Hb.
  cbv zeta in Hb. rewrite Hip, Hw in Hb. cbn [writeError] in Hb.
  change (nodeEntry "10.0.0.9" 8107 8108) with "10.0.0.9:8107:8108" in Hb.
  change ("10.0.0.1:8107:8108,10.0.0.2:8107:8108" +:+ "," +:+
          "10.0.0.9:8107:8108")
    with "10.0.0.1:8107:8108,10.0.0.2:8107:8108,10.0.0.9:8107:8108" in Hb.
  destruct (Bootstrap_connect_quiet f h d) as [_ Hq].
  assert (Hs : status (Bootstrap.bootstrap f h d) = Running "10.0.0.9:8107:8108")
    by now rewrite Hb.
  pose proof (Bootstrap_main_blocks f h d _ _ _ Hc Hs) as Hm.
  cbv zeta in Hm. rewrite Hm. cbn [events].
  rewrite !writes_app, Hq. rewrite Hb. cbn [events disk].
  refine (conj eq_refl (conj eq_refl (conj _ (conj eq_refl eq_refl)))).
  apply osWriteFile_ok.
Qed.

(** C10: with [INITIAL_NODELIST] set to the empty string the seeding block
    still runs, and what it writes is a comma followed by the self entry:
    an empty first element, not the self entry alone. *)
Theorem C10_empty_seed_leading_comma f h d addrs :
  lookupEnv h "INITIAL_NODELIST" = Some "" ->
  interfaceAddrs h = Ok addrs ->
  let thisNode := nodeEntry (Bootstrap.firstIPv4 addrs) 8107 8108 in
  let seeding := Bootstrap.bootstrap f h d in
  writes (events seeding) =
    [WriteFile (nodesFile f) (String "," thisNode) (bootstrapWrite h)] /\
  String "," thisNode <> thisNode /\
  (bootstrapWrite h = WriteOk ->
   status seeding = Running thisNode /\
   disk seeding !! nodesFile f = Some (String "," thisNode)).
Proof.
  intros Henv Haddrs. cbv zeta.
  pose proof (Bootstrap_bootstrap_seeded f h d _ _ Henv Haddrs) as Hb.
  cbv zeta in Hb. rewrite Hb.
  change ("" +:+ "," +:+ nodeEntry (Bootstrap.firstIPv4 addrs) 8107 8108)
    with (String "," (nodeEntry (Bootstrap.firstIPv4 addrs) 8107 8108)).
  refine (conj _ (conj _ _)).
  - destruct (bootstrapWrite h); reflexivity.
  - intros H. apply (f_equal String.length) in H. cbn in H. lia.
  - intros Hw. rewrite Hw. cbn [writeError status disk]. split; [reflexivity|].
    apply osWriteFile_ok.
Qed.

(** ** Write failures *)

(** C8, as stated, fails at the seeding write: it cannot open the file, and
    the process exits with status 1 before the watch loop sees the pending
    notification. *)
Lemma C8_counterexample_bootstrap_write_fatal :
  Bootstrap.main defaultFlags
    (hostWith (Some seed2) [lo4; eth0] (OpenFails "permission denied")
              [ {| cluster := clusterReady; fsWrite := WriteOk |} ]) ∅
  = MkRun (Exited 1) ∅
      [NewForConfig (Some InClusterCfg);
       Watch "typesense";
       Printf ("Bootstrapping cluster with initial node list: "
               +:+ seed2 +:+ ",10.0.0.9:8107:8108");
       WriteFile "/usr/share/typesense/nodes"
                 (seed2 +:+ ",10.0.0.9:8107:8108")
                 (OpenFails "permission denied");
       Fatalf ("failed to write node list: permission denied" +:+ nl)].
Proof. vm_compute. reflexivity. Qed.

(** C8, amended: a failed write in a turn of either watch loop is logged
    with [log.Printf] as the last event of the turn, and the turn ends
    running, so the loop goes on; a failed seeding write is logged with
    [log.Fatalf] and the process exits with status 1. *)
Theorem C8_loop_write_failure_logged_seed_failure_fatal
    f clients thisNode n d e h seed addrs e' :
  writeError (fsWrite n) = Some e ->
  lookupEnv h Bootstrap.bootstrapVar = Some seed ->
  interfaceAddrs h = Ok addrs ->
  writeError (bootstrapWrite h) = Some e' ->
  let failed := Printf ("failed to write nodes file: " +:+ e +:+ nl) in
  (exists evs, events (Fallback.onNotification f clients n d) = evs ++ [failed]) /\
  status (Fallback.onNotification f clients n d) = Running tt /\
  (writes (events (Bootstrap.onNotification f clients thisNode n d)) <> [] ->
   exists evs,
     events (Bootstrap.onNotification f clients thisNode n d) = evs ++ [failed]) /\
  status (Bootstrap.onNotification f clients thisNode n d) = Running tt /\
  (exists evs,
     events (Bootstrap.bootstrap f h d) =
       evs ++ [Fatalf ("failed to write node list: " +:+ e' +:+ nl)]) /\
  status (Bootstrap.bootstrap f h d) = Exited 1 /\
  (forall cw, status (Bootstrap.connect f h d) = Running cw ->
              status (Bootstrap.main f h d) = Exited 1).
Proof.
  intros Hw Henv Haddrs Hbw. cbv zeta.
  pose proof (Bootstrap_bootstrap_seeded f h d _ _ Henv Haddrs) as Hb.
  cbv zeta in Hb. rewrite Hbw in Hb.
  refine (conj _ (conj _ (conj _ (conj _ (conj _ (conj _ _)))))).
  - destruct (Fallback_getNodes_returns f clients (cluster n) d)
      as (nodes & evs & H & _).
    rewrite (Fallback_onNotification_run _ _ _ _ _ _ H). cbn [events].
    unfold writeLog. rewrite Hw.
    exists (evs ++ [WriteFile (nodesFile f) nodes (fsWrite n)]).
    now rewrite <- app_assoc.
  - apply Fallback_onNotification_running.
  - destruct (Bootstrap_getNodes_returns f clients (cluster n) d)
      as (nodes & evs & H & Hq).
    destruct (string_dec nodes "") as [->|Hne].
    + rewrite (Bootstrap_onNotification_empty _ _ _ _ _ _ H). cbn [events].
      intros Hx. now destruct Hx.
    + rewrite (Bootstrap_onNotification_found _ _ _ _ _ _ _ H Hne).
      cbn [events]. intros _. unfold writeLog. rewrite Hw.
      eexists. rewrite app_assoc. reflexivity.
  - apply Bootstrap_onNotification_running.
  - rewrite Hb. cbn [events]. eauto.
  - now rewrite Hb.
  - intros [clients' watcher] Hc. unfold Bootstrap.main.
    rewrite (bind_running _ _ _ _ Hc). cbn [status].
    destruct (Bootstrap_connect_quiet f h d) as [Hd _]. rewrite Hd.
    assert (Hs : status (Bootstrap.bootstrap f h d) = Exited 1)
      by now rewrite Hb.
    now rewrite (bind_exited _ _ _ _ Hs).
Qed.

(** ** The self address *)

Lemma To4_length ip ip4 : Bootstrap.To4 ip = Some ip4 -> length ip4 = 4.
Proof.
  unfold Bootstrap.To4.
  destruct (length ip =? 4) eqn:H4.
  - intros [= <-]. now apply Nat.eqb_eq.
  - destruct (length ip =? 16) eqn:H16; cbn; [|discriminate].
    destruct (_ && _ && _); [|discriminate].
    intros [= <-]. apply Nat.eqb_eq in H16. rewrite length_skipn. lia.
Qed.

(** What [getCurrentIP] returns is the dotted quad of an interface address
    that is IPv4 and not in 127.0.0.0/8, or else the empty string. *)
Lemma firstIPv4_sound addrs :
  Bootstrap.firstIPv4 addrs = "" \/
  exists ip mask ip4,
    In (IPNet ip mask) addrs /\
    Bootstrap.To4 ip = Some ip4 /\
    Bootstrap.IsLoopback ip = false /\
    Bootstrap.firstIPv4 addrs = Bootstrap.dottedQuad ip4.
Proof.
  induction addrs as [|[ip mask|ip] addrs IH]; cbn [Bootstrap.firstIPv4].
  - now left.
  - destruct (Bootstrap.IsLoopback ip) eqn:Hl; cbn [negb].
    + destruct IH as [IH|(ip' & m' & ip4 & Hin & H)]; [now left|].
      right. exists ip', m', ip4. split; [now right | exact H].
    + destruct (Bootstrap.To4 ip) as [ip4|] eqn:H4.
      * right. exists ip, mask, ip4. repeat split; auto. now left.
      * destruct IH as [IH|(ip' & m' & ip4 & Hin & H)]; [now left|].
        right. exists ip', m', ip4. split; [now right | exact H].
  - destruct IH as [IH|(ip' & m' & ip4 & Hin & H)]; [now left|].
    right. exists ip', m', ip4. split; [now right | exact H].
Qed.

(** With no qualifying interface address the result is the empty string. *)
Lemma firstIPv4_none addrs :
  (forall ip mask, In (IPNet ip mask) addrs ->
     Bootstrap.IsLoopback ip = true \/ Bootstrap.To4 ip = None) ->
  Bootstrap.firstIPv4 addrs = "".
Proof.
  induction addrs as [|[ip mask|ip] addrs IH]; intros H;
    cbn [Bootstrap.firstIPv4].
  - reflexivity.
  - assert (IH' : Bootstrap.firstIPv4 addrs = "")
      by (apply IH; intros; eapply H; right; eauto).
    destruct (H ip mask (or_introl eq_refl)) as [Hl|H4].
    + now rewrite Hl.
    + rewrite H4. now destruct (negb _).
  - apply IH. intros; eapply H; right; eauto.
Qed.

(** C2, at a host whose only interface addresses are the two loopbacks:
    [getCurrentIP] returns the empty string, nothing signals a failure, the
    self entry becomes [:8107:8108], and the program seeds the file with it
    and enters the watch loop. *)
Theorem C2_no_address_is_not_fatal :
  let h := hostWith (Some seed2) [lo4; lo6] WriteOk
             [ {| cluster := clusterReady; fsWrite := WriteOk |} ] in
  Bootstrap.getCurrentIP h ∅ = MkRun (Running "") ∅ [] /\
  Bootstrap.bootstrap defaultFlags h ∅ =
    MkRun (Running ":8107:8108")
          (<["/usr/share/typesense/nodes" := seed2 +:+ ",:8107:8108"]> ∅)
          [Printf ("Bootstrapping cluster with initial node list: "
                   +:+ seed2 +:+ ",:8107:8108");
           WriteFile "/usr/share/typesense/nodes"
                     (seed2 +:+ ",:8107:8108") WriteOk] /\
  status (Bootstrap.main defaultFlags h ∅) = Running tt /\
  disk (Bootstrap.main defaultFlags h ∅) !! "/usr/share/typesense/nodes"
    = Some "10.0.0.3:8107:8108,:8107:8108".
Proof. vm_compute. repeat split. Qed.

(** ** The ports of the self entry *)

(** C5, at [-peer-port=9107 -api-port=9108] with the self address 10.0.0.9:
    the self entry is built from the constants 8107 and 8108, not from the
    flags, so the written list mixes the two pairs of ports. *)
Theorem C5_self_entry_ignores_port_flags :
  let h := hostWith None [lo4; eth0] WriteOk
             [ {| cluster := clusterReady; fsWrite := WriteOk |} ] in
  status (Bootstrap.bootstrap customPorts h ∅) = Running "10.0.0.9:8107:8108" /\
  nodeEntry "10.0.0.9" (peerPort customPorts) (apiPort customPorts)
    = "10.0.0.9:9107:9108" /\
  disk (Bootstrap.main customPorts h ∅) !! nodesFile customPorts
    = Some "10.0.0.3:9107:9108,10.0.0.9:8107:8108".
Proof. vm_compute. repeat split. Qed.

(** ** Startup failures *)

Lemma fatalOnly_ret {A} (a : A) : fatalOnly (mret a).
Proof. intros d. exact I. Qed.

Lemma fatalOnly_emit e : fatalOnly (emit e).
Proof. intros d. exact I. Qed.

Lemma fatalOnly_logFatalf {A} msg : fatalOnly (@logFatalf A msg).
Proof. intros d. cbn. split; [reflexivity | now exists [], msg]. Qed.

Lemma fatalOnly_bind {A B} (m : Go A) (k : A -> Go B) :
  fatalOnly m -> (forall a, fatalOnly (k a)) -> fatalOnly (m ≫= k).
Proof.
  intros Hm Hk d. specialize (Hm d).
  unfold mbind, Go_bind, bind. cbv zeta.
  destruct (status (m d)) as [a|c|]; cbn [status events]; [|exact Hm..].
  specialize (Hk a (disk (m d))).
  destruct (status (k a (disk (m d)))) as [b|c|]; [exact I | | exact Hk].
  destruct Hk as (Hc & evs & msg & He). split; [exact Hc|].
  exists (events (m d) ++ evs), msg. now rewrite He, app_assoc.
Qed.

(** Splits a [fatalOnly] goal along the structure of the program. *)
Ltac fatalOnly_steps :=
  repeat first
    [ apply fatalOnly_ret
    | apply fatalOnly_logFatalf
    | apply fatalOnly_emit
    | apply fatalOnly_bind; [|intros]
    | match goal with
      | |- fatalOnly (if ?b then _ else _) => destruct b
      | |- fatalOnly (match ?x with _ => _ end) => destruct x
      end ].

Lemma Bootstrap_connect_fatalOnly f h : fatalOnly (Bootstrap.connect f h).
Proof.
  unfold Bootstrap.connect, kubernetesNewForConfig, watchCall, deref.
  fatalOnly_steps.
Qed.

(** In the program with the self address a failed startup ends the process
    at once, through [log.Fatalf]: status 1, the fatal message last, and
    nothing of the rest of [main] runs. *)
Lemma Bootstrap_connect_failure_fatal f h d :
  (forall cw, status (Bootstrap.connect f h d) <> Running cw) ->
  status (Bootstrap.connect f h d) = Exited 1 /\
  Bootstrap.main f h d =
    MkRun (Exited 1) (disk (Bootstrap.connect f h d))
          (events (Bootstrap.connect f h d)) /\
  exists evs msg, events (Bootstrap.connect f h d) = evs ++ [Fatalf msg].
Proof.
  intros Hf. pose proof (Bootstrap_connect_fatalOnly f h d) as H.
  destruct (status (Bootstrap.connect f h d)) as [cw|c|] eqn:Hs.
  - now destruct (Hf cw).
  - destruct H as [-> He]. split; [reflexivity|]. split; [|exact He].
    unfold Bootstrap.main. now rewrite (bind_exited _ _ _ _ Hs).
  - destruct H.
Qed.

(** C3, on [main.go]: a failed configuration is logged with [log.Printf]
    and the program goes on to build a client from the nil configuration;
    a failed client and a failed watch are logged the same way and the
    program goes on to use the nil value.  None of the three runs ends
    through [log.Fatalf]; each ends in the panic of the nil dereference. *)
Theorem C3_fallback_logs_and_goes_on :
  Fallback.main defaultFlags hostNoConfig ∅ =
    MkRun Panicked ∅
      [Printf ("failed to build local config: "
               +:+ "unable to load in-cluster configuration" +:+ nl);
       NewForConfig None] /\
  Fallback.main defaultFlags hostNoClient ∅ =
    MkRun Panicked ∅
      [NewForConfig (Some InClusterCfg);
       Printf ("failed to create kubernetes client: "
               +:+ "invalid configuration" +:+ nl)] /\
  Fallback.main defaultFlags hostNoWatch ∅ =
    MkRun Panicked ∅
      [NewForConfig (Some InClusterCfg);
       Watch "typesense";
       Printf ("failed to create endpoints watcher: "
               +:+ "endpoints is forbidden" +:+ nl)] /\
  Bootstrap.main defaultFlags hostNoConfig ∅ =
    MkRun (Exited 1) ∅
      [Fatalf ("failed to build local config: "
               +:+ "unable to load in-cluster configuration" +:+ nl)].
Proof. vm_compute. repeat split. Qed.

(** ** The theorems at concrete inputs *)

(** C9 at [itemsTwoSubsets]: three entries, in source order. *)
Lemma C9_witness :
  endpointsIn clusterThree (namespace defaultFlags) = Ok itemsTwoSubsets /\
  status (Bootstrap.getNodes defaultFlags clients0 clusterThree ∅)
    = Running "10.0.0.1:8107:8108,10.0.0.2:8107:8108,10.0.0.3:8107:8108" /\
  status (Fallback.getNodes defaultFlags clients0 clusterThree ∅)
    = Running "10.0.0.1:8107:8108,10.0.0.2:8107:8108,10.0.0.3:8107:8108" /\
  count "," "10.0.0.1:8107:8108,10.0.0.2:8107:8108,10.0.0.3:8107:8108" = 2.
Proof.
  destruct (C9_entries_in_source_order defaultFlags clients0 clusterThree ∅
              itemsTwoSubsets eq_refl) as (_ & _ & Hb & Hf & Hc).
  split; [reflexivity|]. split; [exact Hb|]. split.
  - apply Hf. discriminate.
  - apply Hc. repeat constructor.
Defined.

(** C4 at a host with the interfaces lo and 10.0.0.9 and one pending
    notification: the seeding write, then the write of the loop. *)
Lemma C4_witness :
  let h := hostWith (Some seed2) [lo4; eth0] WriteOk [readyNotification] in
  Bootstrap.firstIPv4 [lo4; eth0] = "10.0.0.9" /\
  writes (events (Bootstrap.main defaultFlags h ∅)) =
    [WriteFile "/usr/share/typesense/nodes"
       "10.0.0.1:8107:8108,10.0.0.2:8107:8108,10.0.0.9:8107:8108" WriteOk;
     WriteFile "/usr/share/typesense/nodes"
       "10.0.0.3:8107:8108,10.0.0.9:8107:8108" WriteOk].
Proof.
  cbv zeta. split; [reflexivity|].
  destruct (C4_bootstrap_seed_then_watch defaultFlags
              (hostWith (Some seed2) [lo4; eth0] WriteOk [readyNotification]) ∅
              clients0 {| ResultChan := [readyNotification] |} [lo4; eth0]
              eq_refl eq_refl eq_refl eq_refl eq_refl)
    as (_ & _ & _ & _ & H).
  exact H.
Defined.

(** C10 at a host with the interface 10.0.0.9. *)
Lemma C10_witness :
  let h := hostWith (Some "") [lo4; eth0] WriteOk [] in
  lookupEnv h "INITIAL_NODELIST" = Some "" /\
  writes (events (Bootstrap.bootstrap defaultFlags h ∅)) =
    [WriteFile "/usr/share/typesense/nodes" ",10.0.0.9:8107:8108" WriteOk] /\
  disk (Bootstrap.bootstrap defaultFlags h ∅) !! "/usr/share/typesense/nodes"
    = Some ",10.0.0.9:8107:8108".
Proof.
  cbv zeta. split; [reflexivity|].
  destruct (C10_empty_seed_leading_comma defaultFlags
              (hostWith (Some "") [lo4; eth0] WriteOk []) ∅ [lo4; eth0]
              eq_refl eq_refl) as (Hw & _ & Hd).
  split; [exact Hw|]. exact (proj2 (Hd eq_refl)).
Defined.

(** C8 at a full disk in the loop and an unwritable file at startup. *)
Lemma C8_witness :
  let h := hostWith (Some seed2) [lo4; eth0] (OpenFails "permission denied")
             [readyNotification] in
  writeError (fsWrite diskFullNotification) = Some "no space left on device" /\
  writeError (bootstrapWrite h) = Some "permission denied" /\
  status (Fallback.onNotification defaultFlags clients0
            diskFullNotification ∅) = Running tt /\
  status (Bootstrap.onNotification defaultFlags clients0 "10.0.0.9:8107:8108"
            diskFullNotification ∅) = Running tt /\
  status (Bootstrap.main defaultFlags h ∅) = Exited 1.
Proof.
  cbv zeta. split; [reflexivity|]. split; [reflexivity|].
  destruct (C8_loop_write_failure_logged_seed_failure_fatal
              defaultFlags clients0 "10.0.0.9:8107:8108" diskFullNotification ∅
              "no space left on device"
              (hostWith (Some seed2) [lo4; eth0]
                        (OpenFails "permission denied") [readyNotification])
              seed2 [lo4; eth0] "permission denied"
              eq_refl eq_refl eq_refl eq_refl)
    as (_ & Hf & _ & Hb & _ & _ & Hm).
  split; [exact Hf|]. split; [exact Hb|].
  exact (Hm (clients0, {| ResultChan := [readyNotification] |}) eq_refl).
Defined.

(** C7 at an API server that refuses the listing. *)
Lemma C7_witness :
  endpointListFails defaultFlags clusterDown "connection refused" /\
  Bootstrap.onNotification defaultFlags clients0 "10.0.0.9:8107:8108"
    downNotification oldDisk =
    MkRun (Running tt) oldDisk
      [ListEndpoints "typesense";
       Printf ("failed to list endpoints: connection refused" +:+ nl)] /\
  status (Fallback.onNotification defaultFlags clients0
            downNotification oldDisk) = Running tt.
Proof.
  destruct (C7_api_error_turn_is_survived defaultFlags clients0
              "10.0.0.9:8107:8108" downNotification [] oldDisk
              "connection refused") as (Hb & _ & Hf).
  split; [reflexivity|].
  destruct (Hb eq_refl) as (_ & _ & Ht & _).
  split; [exact Ht|].
  exact (proj1 (proj2 (Hf (or_introl eq_refl)))).
Defined.

(** * Further properties of the two programs *)

(** ** [getCurrentIP] *)

Lemma firstIPv4_skips pre rest :
  List.Forall (fun a => qualifies a = false) pre ->
  Bootstrap.firstIPv4 (pre ++ rest) = Bootstrap.firstIPv4 rest.
Proof.
  induction 1 as [|a pre Ha _ IH]; [reflexivity|].
  cbn [app Bootstrap.firstIPv4]. destruct a as [ip mask|ip]; [|exact IH].
  cbn [qualifies] in Ha.
  destruct (Bootstrap.IsLoopback ip); cbn [negb andb] in *; [exact IH|].
  destruct (Bootstrap.To4 ip); [discriminate | exact IH].
Qed.

(** X1: [getCurrentIP] returns at the first interface address, in the
    order of [net.InterfaceAddrs], that is a [*net.IPNet], not a loopback
    and IPv4; later addresses are never looked at. *)
Theorem X1_first_qualifying_address_wins h d pre ip mask ip4 post :
  interfaceAddrs h = Ok (pre ++ IPNet ip mask :: post) ->
  List.Forall (fun a => qualifies a = false) pre ->
  Bootstrap.IsLoopback ip = false ->
  Bootstrap.To4 ip = Some ip4 ->
  Bootstrap.getCurrentIP h d =
    MkRun (Running (Bootstrap.dottedQuad ip4)) d [].
Proof.
  intros Ha Hpre Hl H4. unfold Bootstrap.getCurrentIP. rewrite Ha.
  rewrite (firstIPv4_skips _ _ Hpre). cbn [Bootstrap.firstIPv4].
  now rewrite Hl, H4.
Qed.

(** X1 at [manyAddrs]: 10.0.0.9 wins over 192.168.1.5. *)
Lemma X1_witness :
  Bootstrap.getCurrentIP (hostWith None manyAddrs WriteOk []) ∅ =
    MkRun (Running "10.0.0.9") ∅ [].
Proof.
  exact (X1_first_qualifying_address_wins
           (hostWith None manyAddrs WriteOk []) ∅
           (firstn 4 manyAddrs)
           [Byte.x0a; Byte.x00; Byte.x00; Byte.x09]
           [Byte.xff; Byte.xff; Byte.xff; Byte.x00]
           [Byte.x0a; Byte.x00; Byte.x00; Byte.x09]
           (skipn 5 manyAddrs)
           eq_refl
           ltac:(repeat constructor) eq_refl eq_refl).
Defined.

Lemma count_uint_dot d : count "." (NilEmpty.string_of_uint d) = 0.
Proof. induction d; cbn; auto. Qed.

Lemma count_itoa_dot n : count "." (itoa n) = 0.
Proof.
  unfold itoa. destruct (Z.to_int n) as [u|u]; cbn;
    destruct u; try reflexivity; apply count_uint_dot.
Qed.

(** Counting a character through [strings.Join] when every element holds
    it [k] times. *)
Lemma count_Join_uniform c k (l : list string) sep :
  List.Forall (fun e => count c e = k) l ->
  count c (Join l sep) = k * length l + pred (length l) * count c sep.
Proof.
  induction l as [|x [|y l] IH]; intros H.
  - cbn. lia.
  - inversion H; subst. cbn. lia.
  - rewrite Join_cons, !count_app.
    inversion H as [|? ? Hx Hl]; subst.
    rewrite (IH Hl). cbn [length pred]. lia.
Qed.

Lemma count_dottedQuad c ip4 :
  isSep c -> count c (Bootstrap.dottedQuad ip4) = 0.
Proof.
  intros Hc. unfold Bootstrap.dottedQuad.
  rewrite (count_Join_uniform c 0).
  - destruct Hc as [-> | ->]; cbn; lia.
  - apply List.Forall_map, List.Forall_forall. intros b _.
    now apply count_itoa.
Qed.

(** The self address holds neither separator of the nodes file. *)
Lemma firstIPv4_plain c addrs :
  isSep c -> count c (Bootstrap.firstIPv4 addrs) = 0.
Proof.
  intros Hc.
  destruct (firstIPv4_sound addrs) as [-> | (ip & m & ip4 & _ & _ & _ & ->)].
  - reflexivity.
  - now apply count_dottedQuad.
Qed.

(** X2: whatever the interfaces are, the string [getCurrentIP] returns
    holds no colon and no comma, and unless it is empty it holds exactly
    three dots: it is a dotted quad and cannot break the [host:port:port]
    layout of the entry built from it. *)
Theorem X2_self_address_is_a_dotted_quad h d addrs :
  interfaceAddrs h = Ok addrs ->
  exists ip,
    Bootstrap.getCurrentIP h d = MkRun (Running ip) d [] /\
    count ":" ip = 0 /\ count "," ip = 0 /\
    (ip <> "" -> count "." ip = 3) /\
    count ":" (nodeEntry ip 8107 8108) = 2.
Proof.
  intros Ha. exists (Bootstrap.firstIPv4 addrs).
  unfold Bootstrap.getCurrentIP. rewrite Ha.
  split; [reflexivity|].
  split; [apply firstIPv4_plain; now left|].
  split; [apply firstIPv4_plain; now right|].
  split.
  - destruct (firstIPv4_sound addrs)
      as [-> | (ip & m & ip4 & _ & H4 & _ & ->)]; [congruence|].
    intros _. unfold Bootstrap.dottedQuad.
    rewrite (count_Join_uniform "." 0).
    + rewrite length_map, (To4_length _ _ H4). reflexivity.
    + apply List.Forall_map, List.Forall_forall. intros b _.
      apply count_itoa_dot.
  - rewrite count_nodeEntry_colon, firstIPv4_plain by now left. reflexivity.
Qed.

(** X2 at [manyAddrs]. *)
Lemma X2_witness :
  exists ip,
    Bootstrap.getCurrentIP (hostWith None manyAddrs WriteOk []) ∅
      = MkRun (Running ip) ∅ [] /\
    count ":" ip = 0 /\ count "," ip = 0 /\
    (ip <> "" -> count "." ip = 3) /\
    count ":" (nodeEntry ip 8107 8108) = 2.
Proof.
  exact (X2_self_address_is_a_dotted_quad
           (hostWith None manyAddrs WriteOk []) ∅ manyAddrs eq_refl).
Defined.

(** ** Startup of the program with the self address, in general *)

Lemma Bootstrap_bootstrap_noaddrs f h d e :
  interfaceAddrs h = Err e ->
  Bootstrap.bootstrap f h d =
  MkRun (Exited 1) d
        [Fatalf ("error resolving local addresses: " +:+ e +:+ nl)].
Proof.
  intros He. unfold Bootstrap.bootstrap, Bootstrap.getCurrentIP. rewrite He.
  destruct (lookupEnv h Bootstrap.bootstrapVar); reflexivity.
Qed.

(** Sequencing after a computation whose run is known. *)
Lemma bind_run {A B} (m : Go A) (k : A -> Go B) d a d' evs :
  m d = MkRun (Running a) d' evs ->
  (m ≫= k) d = emitting evs (k a d').
Proof.
  intros H. unfold mbind, Go_bind, bind, emitting. cbv zeta. now rewrite H.
Qed.

Lemma bind_mret {A B} (a : A) (k : A -> Go B) d : (mret a ≫= k) d = k a d.
Proof.
  unfold mbind, mret, Go_bind, Go_ret, bind, ret. cbn.
  now destruct (k a d).
Qed.

Lemma kubernetesNewForConfig_some h c d :
  kubernetesNewForConfig h (Some c) d =
  MkRun (Running (newForConfig h c)) d [NewForConfig (Some c)].
Proof. reflexivity. Qed.

Lemma watchCall_run h clients ns d :
  watchCall h clients ns d =
  MkRun (Running (watchEndpoints h ns)) d [Watch ns].
Proof. reflexivity. Qed.

(** What [connect] does, by the answers of the three calls. *)
Lemma Bootstrap_connect_cases f h d :
  match configResult h with
  | Err _ => status (Bootstrap.connect f h d) = Exited 1
  | Ok c =>
      match newForConfig h c with
      | Err _ => status (Bootstrap.connect f h d) = Exited 1
      | Ok cs =>
          match watchEndpoints h (namespace f) with
          | Err _ => status (Bootstrap.connect f h d) = Exited 1
          | Ok w =>
              Bootstrap.connect f h d =
              MkRun (Running (cs, w)) d
                    [NewForConfig (Some c); Watch (namespace f)]
          end
      end
  end.
Proof.
  unfold Bootstrap.connect, configResult.
  destruct (kubeconfigAbsent h);
    [destruct (inClusterConfig h) as [c|e]
    |destruct (buildConfigFromFlags h) as [c|e]];
    try reflexivity;
    rewrite bind_mret,
      (bind_run _ _ _ _ _ _ (kubernetesNewForConfig_some h c d));
    (destruct (newForConfig h c) as [cs|e]; cbv beta iota; [|reflexivity]);
    rewrite bind_mret, (bind_run _ _ _ _ _ _ (watchCall_run h cs _ d));
    (destruct (watchEndpoints h (namespace f)) as [w|e]; cbv beta iota;
     [|reflexivity]);
    now rewrite bind_mret.
Qed.

(** X3: when [net.InterfaceAddrs] fails the process exits with status 1
    right after the watch is set up, with the fatal message as its last
    event and no file written; this holds whether [INITIAL_NODELIST] is set
    or not, since the self address is resolved in both cases. *)
Theorem X3_interface_error_is_fatal f h d cw e :
  status (Bootstrap.connect f h d) = Running cw ->
  interfaceAddrs h = Err e ->
  Bootstrap.main f h d =
    MkRun (Exited 1) d
          (events (Bootstrap.connect f h d) ++
           [Fatalf ("error resolving local addresses: " +:+ e +:+ nl)]) /\
  writes (events (Bootstrap.main f h d)) = [].
Proof.
  intros Hc He. destruct cw as [clients watcher].
  destruct (Bootstrap_connect_quiet f h d) as [Hd Hq].
  assert (Hm : Bootstrap.main f h d =
    MkRun (Exited 1) d
          (events (Bootstrap.connect f h d) ++
           [Fatalf ("error resolving local addresses: " +:+ e +:+ nl)])).
  { unfold Bootstrap.main. rewrite (bind_running _ _ _ _ Hc), Hd.
    rewrite bind_exited with (c := 1%Z)
      by now rewrite (Bootstrap_bootstrap_noaddrs _ _ _ _ He).
    now rewrite (Bootstrap_bootstrap_noaddrs _ _ _ _ He). }
  split; [exact Hm|]. rewrite Hm. cbn [events].
  now rewrite writes_app, Hq.
Qed.

(** X3 at [hostNoInterfaces]. *)
Lemma X3_witness :
  Bootstrap.main defaultFlags hostNoInterfaces oldDisk =
    MkRun (Exited 1) oldDisk
      [NewForConfig (Some KubeconfigCfg); Watch "typesense";
       Fatalf ("error resolving local addresses: "
               +:+ "route ip+net: netlinkrib: permission denied" +:+ nl)].
Proof.
  exact (proj1 (X3_interface_error_is_fatal defaultFlags hostNoInterfaces
                  oldDisk
                  (ClientsetFor KubeconfigCfg,
                   {| ResultChan := [readyNotification] |})
                  "route ip+net: netlinkrib: permission denied"
                  eq_refl eq_refl)).
Defined.

(** X4: the seeding block writes if and only if [INITIAL_NODELIST] is set,
    whatever its value; then it makes exactly one write, of the value, a
    comma and the self entry; without the variable it writes nothing, leaves
    the disk as it was and only computes the self entry. *)
Theorem X4_seeding_iff_variable_set f h d addrs :
  interfaceAddrs h = Ok addrs ->
  let thisNode := nodeEntry (Bootstrap.firstIPv4 addrs) 8107 8108 in
  let r := Bootstrap.bootstrap f h d in
  (writes (events r) <> [] <->
   exists seed, lookupEnv h "INITIAL_NODELIST" = Some seed) /\
  (forall seed,
     lookupEnv h "INITIAL_NODELIST" = Some seed ->
     writes (events r) =
       [WriteFile (nodesFile f) (seed +:+ "," +:+ thisNode)
                  (bootstrapWrite h)]) /\
  (lookupEnv h "INITIAL_NODELIST" = None ->
   r = MkRun (Running thisNode) d []).
Proof.
  intros Ha. cbv zeta.
  destruct (lookupEnv h "INITIAL_NODELIST") as [seed|] eqn:Henv.
  - pose proof (Bootstrap_bootstrap_seeded f h d _ _ Henv Ha) as Hb.
    cbv zeta in Hb.
    assert (Hw : writes (events (Bootstrap.bootstrap f h d)) =
      [WriteFile (nodesFile f)
         (seed +:+ "," +:+ nodeEntry (Bootstrap.firstIPv4 addrs) 8107 8108)
         (bootstrapWrite h)]).
    { rewrite Hb. destruct (writeError (bootstrapWrite h)); reflexivity. }
    refine (conj _ (conj _ _)).
    + rewrite Hw. split; [eauto | discriminate].
    + intros seed' [= <-]. exact Hw.
    + discriminate.
  - pose proof (Bootstrap_bootstrap_unseeded f h d _ Henv Ha) as Hb.
    refine (conj _ (conj _ _)).
    + rewrite Hb. cbn. split; [congruence | intros [? ?]; discriminate].
    + discriminate.
    + intros _. exact Hb.
Qed.

(** X4 at a host without the variable, and at one holding a single peer. *)
Lemma X4_witness :
  Bootstrap.bootstrap defaultFlags (hostWith None [lo4; eth0] WriteOk [])
    oldDisk = MkRun (Running "10.0.0.9:8107:8108") oldDisk [] /\
  writes (events (Bootstrap.bootstrap defaultFlags
                    (hostWith (Some "10.0.0.1:8107:8108") [eth0] WriteOk [])
                    oldDisk)) =
    [WriteFile "/usr/share/typesense/nodes"
               "10.0.0.1:8107:8108,10.0.0.9:8107:8108" WriteOk].
Proof.
  split.
  - exact (proj2 (proj2 (X4_seeding_iff_variable_set defaultFlags
             (hostWith None [lo4; eth0] WriteOk []) oldDisk [lo4; eth0]
             eq_refl)) eq_refl).
  - exact (proj1 (proj2 (X4_seeding_iff_variable_set defaultFlags
             (hostWith (Some "10.0.0.1:8107:8108") [eth0] WriteOk [])
             oldDisk [eth0] eq_refl)) "10.0.0.1:8107:8108" eq_refl).
Defined.

(** ** The watch loops never stop the process *)

(** X5: whatever the API answers and whatever happens to the writes, no
    sequence of notifications makes either watch loop exit or panic: the
    loop handles every notification the channel delivers. *)
Theorem X5_watch_loops_never_crash f clients watcher thisNode d :
  status (Bootstrap.watchLoop f clients watcher thisNode d) = Running tt /\
  status (Fallback.watchLoop f (Some clients) (Some watcher) d) = Running tt.
Proof.
  split.
  - unfold Bootstrap.watchLoop. apply forRange_running.
    intros n d'. apply Bootstrap_onNotification_running.
  - unfold Fallback.watchLoop, deref. rewrite !bind_mret.
    apply forRange_running.
    intros n d'. apply Fallback_onNotification_running.
Qed.

(** ** How the two [main] functions can end *)

Lemma bind_exit_run {A B} (m : Go A) (k : A -> Go B) d c d' evs :
  m d = MkRun (Exited c) d' evs -> (m ≫= k) d = MkRun (Exited c) d' evs.
Proof.
  intros H. unfold mbind, Go_bind, bind. cbv zeta. now rewrite H.
Qed.


Lemma logPrintf_run msg d :
  logPrintf msg d = MkRun (Running tt) d [Printf msg].
Proof. reflexivity. Qed.

Lemma fatalOnly_osWriteFile path data o : fatalOnly (osWriteFile path data o).
Proof. intros d. now destruct o. Qed.

Lemma fatalOnly_forRange {A} (body : A -> Go unit) xs :
  (forall x, fatalOnly (body x)) -> fatalOnly (forRange xs body).
Proof.
  intros Hb. induction xs as [|x xs IH]; cbn [forRange].
  - apply fatalOnly_ret.
  - apply fatalOnly_bind; [apply Hb | intros _; exact IH].
Qed.

Lemma Bootstrap_main_fatalOnly f h : fatalOnly (Bootstrap.main f h).
Proof.
  unfold Bootstrap.main. apply fatalOnly_bind;
    [apply Bootstrap_connect_fatalOnly|].
  intros [clients watcher]. apply fatalOnly_bind.
  - unfold Bootstrap.bootstrap, Bootstrap.getCurrentIP, logPrintf.
    destruct (lookupEnv h Bootstrap.bootstrapVar);
      repeat first
        [ apply fatalOnly_ret
        | apply fatalOnly_logFatalf
        | apply fatalOnly_emit
        | apply fatalOnly_osWriteFile
        | apply fatalOnly_bind; [|intros]
        | match goal with
          | |- fatalOnly (match ?x with _ => _ end) => destruct x
          end ].
  - intros thisNode d. unfold Bootstrap.watchLoop.
    rewrite forRange_running; [exact I|].
    intros n d'. apply Bootstrap_onNotification_running.
Qed.

(** The three calls of startup all succeeded. *)
Lemma Bootstrap_connect_running_iff f h d :
  (exists cw, status (Bootstrap.connect f h d) = Running cw) <->
  (exists c cs w,
     configResult h = Ok c /\ newForConfig h c = Ok cs /\
     watchEndpoints h (namespace f) = Ok w).
Proof.
  pose proof (Bootstrap_connect_cases f h d) as Hc.
  destruct (configResult h) as [c|e].
  - destruct (newForConfig h c) as [cs|e] eqn:Hn.
    + destruct (watchEndpoints h (namespace f)) as [w|e].
      * rewrite Hc. split; [intros _; exists c, cs, w; auto | eauto].
      * rewrite Hc. split; [intros [? ?]; discriminate|].
        intros (? & ? & ? & _ & _ & ?). discriminate.
    + rewrite Hc. split; [intros [? ?]; discriminate|].
      intros (c' & ? & ? & Hc' & Hn' & _). inversion Hc'; subst. congruence.
  - rewrite Hc. split; [intros [? ?]; discriminate|].
    intros (? & ? & ? & ? & _). discriminate.
Qed.

(** X6: the program with the self address ends its startup running exactly
    when the configuration, the client and the watch were obtained, the
    interfaces could be listed, and the seeding write, if the variable is
    set, succeeded; then it handles all notifications.  In every other case
    it exits with status 1 and a fatal log line as its last event; it never
    panics. *)
Theorem X6_bootstrap_main_outcomes f h d :
  (status (Bootstrap.main f h d) = Running tt <->
   (exists c cs w,
      configResult h = Ok c /\ newForConfig h c = Ok cs /\
      watchEndpoints h (namespace f) = Ok w) /\
   (exists addrs, interfaceAddrs h = Ok addrs) /\
   (lookupEnv h "INITIAL_NODELIST" = None \/
    writeError (bootstrapWrite h) = None)) /\
  (status (Bootstrap.main f h d) <> Running tt ->
   status (Bootstrap.main f h d) = Exited 1 /\
   exists evs msg, events (Bootstrap.main f h d) = evs ++ [Fatalf msg]).
Proof.
  split.
  - rewrite <- (Bootstrap_connect_running_iff f h d).
    destruct (status (Bootstrap.connect f h d)) as [[clients watcher]|c|]
      eqn:Hc.
    + assert (Hl : forall thisNode d',
        status (Bootstrap.watchLoop f clients watcher thisNode d')
          = Running tt).
      { intros. unfold Bootstrap.watchLoop. apply forRange_running.
        intros. apply Bootstrap_onNotification_running. }
      destruct (Bootstrap_connect_quiet f h d) as [Hd _].
      unfold Bootstrap.main. rewrite (bind_running _ _ _ _ Hc), Hd.
      cbn [status].
      destruct (interfaceAddrs h) as [addrs|e] eqn:Ha.
      * destruct (lookupEnv h "INITIAL_NODELIST") as [seed|] eqn:Henv.
        -- pose proof (Bootstrap_bootstrap_seeded f h d _ _ Henv Ha) as Hb.
           cbv zeta in Hb.
           destruct (writeError (bootstrapWrite h)) as [e|].
           ++ rewrite (bind_exit_run _ _ _ _ _ _ Hb). cbn [status].
              split; [discriminate|].
              intros (_ & _ & [? | ?]); discriminate.
           ++ rewrite (bind_run _ _ _ _ _ _ Hb). cbn [emitting status].
              rewrite Hl. split; eauto 6.
        -- rewrite (bind_run _ _ _ _ _ _
                      (Bootstrap_bootstrap_unseeded f h d _ Henv Ha)).
           cbn [emitting status]. rewrite Hl. split; eauto 6.
      * rewrite (bind_exit_run _ _ _ _ _ _
                   (Bootstrap_bootstrap_noaddrs f h d _ Ha)).
        cbn [status]. split; [discriminate|].
        intros (_ & [? ?] & _). discriminate.
    + unfold Bootstrap.main. rewrite (bind_exited _ _ _ _ Hc). cbn [status].
      split; [discriminate | intros ([? ?] & _); discriminate].
    + pose proof (Bootstrap_connect_fatalOnly f h d) as H.
      rewrite Hc in H. destruct H.
  - intros Hs. pose proof (Bootstrap_main_fatalOnly f h d) as H.
    destruct (status (Bootstrap.main f h d)) as [[]|c|].
    + now destruct Hs.
    + destruct H as [-> He]. now split.
    + destruct H.
Qed.











(** ** The only file the programs write *)

Lemma writesOnly_ret {A} path (a : A) : writesOnly path (mret a).
Proof. intros d. split; [reflexivity | constructor]. Qed.

Lemma writesOnly_emit path e : isWrite e = false -> writesOnly path (emit e).
Proof.
  intros H d. split; [reflexivity|].
  repeat constructor. now destruct e.
Qed.

Lemma writesOnly_logFatalf {A} path msg : writesOnly path (@logFatalf A msg).
Proof. intros d. split; [reflexivity | now repeat constructor]. Qed.

Lemma writesOnly_deref {A} path (p : option A) : writesOnly path (deref p).
Proof. intros d. destruct p; (split; [reflexivity | constructor]). Qed.

Lemma writesOnly_osWriteFile path data o :
  writesOnly path (osWriteFile path data o).
Proof.
  intros d. split.
  - intros p Hp. destruct o; cbn; try reflexivity;
      now rewrite lookup_insert_ne by congruence.
  - destruct o; now repeat constructor.
Qed.

Lemma writesOnly_bind {A B} path (m : Go A) (k : A -> Go B) :
  writesOnly path m -> (forall a, writesOnly path (k a)) ->
  writesOnly path (m ≫= k).
Proof.
  intros Hm Hk d. destruct (Hm d) as [Hd He].
  unfold mbind, Go_bind, bind. cbv zeta.
  destruct (status (m d)) as [a|c|]; cbn [disk events]; [|now split..].
  destruct (Hk a (disk (m d))) as [Hd' He']. split.
  - intros p Hp. now rewrite Hd', Hd.
  - apply List.Forall_app. now split.
Qed.

Lemma writesOnly_forRange {A} path (body : A -> Go unit) xs :
  (forall x, writesOnly path (body x)) -> writesOnly path (forRange xs body).
Proof.
  intros Hb. induction xs as [|x xs IH]; cbn [forRange].
  - apply writesOnly_ret.
  - apply writesOnly_bind; [apply Hb | intros _; exact IH].
Qed.

(** Splits a [writesOnly] goal along the structure of the program. *)
Ltac writesOnly_steps :=
  repeat first
    [ apply writesOnly_ret
    | apply writesOnly_logFatalf
    | apply writesOnly_deref
    | apply writesOnly_osWriteFile
    | apply writesOnly_emit; reflexivity
    | apply writesOnly_forRange; intros
    | apply writesOnly_bind; [|intros]
    | match goal with
      | |- writesOnly _ (if ?b then _ else _) => destruct b
      | |- writesOnly _ (match ?x with _ => _ end) => destruct x
      end ].

Lemma Fallback_main_writesOnly f h :
  writesOnly (nodesFile f) (Fallback.main f h).
Proof.
  unfold Fallback.main, Fallback.connect, Fallback.watchLoop,
    Fallback.onNotification, Fallback.getNodes, kubernetesNewForConfig,
    watchCall, listEndpoints, listPods, logPrintf.
  writesOnly_steps.
Qed.

Lemma Bootstrap_main_writesOnly f h :
  writesOnly (nodesFile f) (Bootstrap.main f h).
Proof.
  unfold Bootstrap.main, Bootstrap.connect, Bootstrap.bootstrap,
    Bootstrap.getCurrentIP, Bootstrap.watchLoop, Bootstrap.onNotification,
    Bootstrap.getNodes, kubernetesNewForConfig, watchCall, listEndpoints,
    logPrintf.
  destruct (lookupEnv h Bootstrap.bootstrapVar); writesOnly_steps.
Qed.

Lemma writesOnly_events {A} path (m : Go A) d p data o :
  writesOnly path m -> In (WriteFile p data o) (events (m d)) -> p = path.
Proof.
  intros Hm Hin. destruct (Hm d) as [_ He].
  rewrite List.Forall_forall in He. exact (He _ Hin).
Qed.

(** X8: through startup, seeding and any sequence of notifications, both
    programs write no file but the one named by [-nodes-file]: every write
    event targets it, and every other path of the disk keeps its content. *)
Theorem X8_only_the_nodes_file_is_written f h d :
  (forall p, p <> nodesFile f ->
     disk (Bootstrap.main f h d) !! p = d !! p /\
     disk (Fallback.main f h d) !! p = d !! p) /\
  (forall p data o,
     In (WriteFile p data o) (events (Bootstrap.main f h d)) \/
     In (WriteFile p data o) (events (Fallback.main f h d)) ->
     p = nodesFile f).
Proof.
  split.
  - intros p Hp. split.
    + now apply (Bootstrap_main_writesOnly f h d).
    + now apply (Fallback_main_writesOnly f h d).
  - intros p data o [H|H].
    + exact (writesOnly_events _ _ _ _ _ _ (Bootstrap_main_writesOnly f h) H).
    + exact (writesOnly_events _ _ _ _ _ _ (Fallback_main_writesOnly f h) H).
Qed.

(** ** The resolvers do not read the disk *)

Lemma Bootstrap_getNodes_indep f clients cl :
  exists nodes evs,
    writes evs = [] /\
    forall d, Bootstrap.getNodes f clients cl d = MkRun (Running nodes) d evs.
Proof.
  destruct (endpointsIn cl (namespace f)) as [items|e] eqn:H.
  - do 2 eexists. split; [|intros d; apply (Bootstrap_getNodes_ok _ _ _ _ _ H)].
    reflexivity.
  - do 2 eexists. split; [|intros d; apply (Bootstrap_getNodes_err _ _ _ _ _ H)].
    reflexivity.
Qed.

Lemma Fallback_getNodes_indep f clients cl :
  exists nodes evs,
    writes evs = [] /\
    forall d, Fallback.getNodes f clients cl d = MkRun (Running nodes) d evs.
Proof.
  destruct (endpointsIn cl (namespace f)) as [items|e] eqn:H.
  - destruct (serviceAddresses f items) as [|a l] eqn:He.
    + destruct (podsIn cl (namespace f) (appSelector f)) as [pods|e] eqn:Hp.
      * do 2 eexists. split;
          [|intros d; apply (Fallback_getNodes_pods _ _ _ _ _ _ H He Hp)].
        reflexivity.
      * do 2 eexists. split;
          [|intros d; apply (Fallback_getNodes_pods_err _ _ _ _ _ _ H He Hp)].
        reflexivity.
    + assert (Hne : serviceAddresses f items <> [])
        by (rewrite He; discriminate).
      do 2 eexists. split;
        [|intros d; apply (Fallback_getNodes_ready _ _ _ _ _ H Hne)].
      reflexivity.
  - do 2 eexists. split; [|intros d; apply (Fallback_getNodes_err _ _ _ _ _ H)].
    reflexivity.
Qed.

Lemma osWriteFile_twice path data o d :
  disk (osWriteFile path data o (disk (osWriteFile path data o d)))
  = disk (osWriteFile path data o d).
Proof. destruct o; cbn; [|reflexivity|]; apply insert_insert_eq. Qed.

(** X9: handling the same notification a second time, with the API and
    the file system answering as before, changes nothing: the second turn
    emits the same events and leaves the disk as the first turn left it.
    This holds in both programs and for every outcome of the write. *)
Theorem X9_repeated_notification_is_idempotent f clients thisNode n d :
  (let once := Fallback.onNotification f clients n d in
   let twice := Fallback.onNotification f clients n (disk once) in
   disk twice = disk once /\ events twice = events once) /\
  (let once := Bootstrap.onNotification f clients thisNode n d in
   let twice := Bootstrap.onNotification f clients thisNode n (disk once) in
   disk twice = disk once /\ events twice = events once).
Proof.
  cbv zeta. split.
  - destruct (Fallback_getNodes_indep f clients (cluster n))
      as (nodes & evs & _ & H).
    rewrite !(Fallback_onNotification_run _ _ _ _ _ _ (H _)).
    cbn [disk events]. split; [apply osWriteFile_twice | reflexivity].
  - destruct (Bootstrap_getNodes_indep f clients (cluster n))
      as (nodes & evs & _ & H).
    destruct (string_dec nodes "") as [->|Hne].
    + rewrite !(Bootstrap_onNotification_empty _ _ _ _ _ _ (H _)).
      now split.
    + rewrite !(Bootstrap_onNotification_found _ _ _ _ _ _ _ (H _) Hne).
      cbn [disk events]. split; [apply osWriteFile_twice | reflexivity].
Qed.

(** ** What the file holds after a run of the loop *)

Lemma forRange_snoc_disk {A} (body : A -> Go unit) xs y d :
  (forall x d, status (body x d) = Running tt) ->
  disk (forRange (xs ++ [y]) body d) = disk (body y (disk (forRange xs body d))).
Proof.
  intros Hb. revert d. induction xs as [|x xs IH]; intros d.
  - cbn [app]. rewrite (forRange_next _ _ _ _ (Hb y d)). reflexivity.
  - cbn [app]. rewrite !(forRange_next _ _ _ _ (Hb x d)). cbn [disk].
    apply IH.
Qed.

(** X10: the history of a run does not show in the file.  After any
    sequence of notifications, if the write of the last one succeeds, the
    file of [main.go] holds exactly the list resolved for that last
    notification; in the program with the self address it holds that list
    joined with the self entry when the list is non-empty, and the last
    notification leaves the disk as the earlier ones left it when the list
    is empty. *)
Theorem X10_file_reflects_last_notification f clients thisNode ns n d :
  (exists nodes,
     (forall d', status (Fallback.getNodes f clients (cluster n) d')
                 = Running nodes) /\
     (fsWrite n = WriteOk ->
      disk (forRange (ns ++ [n]) (Fallback.onNotification f clients) d)
        !! nodesFile f = Some nodes)) /\
  (exists nodes,
     (forall d', status (Bootstrap.getNodes f clients (cluster n) d')
                 = Running nodes) /\
     (nodes = "" ->
      disk (forRange (ns ++ [n]) (Bootstrap.onNotification f clients thisNode) d)
      = disk (forRange ns (Bootstrap.onNotification f clients thisNode) d)) /\
     (nodes <> "" -> fsWrite n = WriteOk ->
      disk (forRange (ns ++ [n]) (Bootstrap.onNotification f clients thisNode) d)
        !! nodesFile f = Some (nodes +:+ "," +:+ thisNode))).
Proof.
  split.
  - destruct (Fallback_getNodes_indep f clients (cluster n))
      as (nodes & evs & _ & H).
    exists nodes. split; [intros d'; now rewrite H|].
    intros Hw. rewrite forRange_snoc_disk
      by (intros; apply Fallback_onNotification_running).
    rewrite (Fallback_onNotification_run _ _ _ _ _ _ (H _)), Hw.
    apply osWriteFile_ok.
  - destruct (Bootstrap_getNodes_indep f clients (cluster n))
      as (nodes & evs & _ & H).
    exists nodes. split; [intros d'; now rewrite H|]. split.
    + intros ->. rewrite forRange_snoc_disk
        by (intros; apply Bootstrap_onNotification_running).
      now rewrite (Bootstrap_onNotification_empty _ _ _ _ _ _ (H _)).
    + intros Hne Hw. rewrite forRange_snoc_disk
        by (intros; apply Bootstrap_onNotification_running).
      rewrite (Bootstrap_onNotification_found _ _ _ _ _ _ _ (H _) Hne), Hw.
      apply osWriteFile_ok.
Qed.

(** ** When the resolver of [main.go] returns nothing *)

(** X11: the resolver of [main.go] returns the empty string, which the
    loop then writes over the file, in exactly three situations: the
    endpoint listing fails; or the scan finds no address and the pod
    listing fails; or the scan finds no address and no pod matches.  The
    caller cannot tell a failure from an empty cluster. *)
Theorem X11_fallback_empty_result_iff f clients cl d :
  status (Fallback.getNodes f clients cl d) = Running "" <->
  (exists e, endpointsIn cl (namespace f) = Err e) \/
  (scanFoundNothing f cl /\
   ((exists e, podsIn cl (namespace f) (appSelector f) = Err e) \/
    podsIn cl (namespace f) (appSelector f) = Ok [])).
Proof.
  unfold scanFoundNothing.
  destruct (endpointsIn cl (namespace f)) as [items|e] eqn:H.
  - destruct (serviceAddresses f items) as [|a l] eqn:He.
    + destruct (podsIn cl (namespace f) (appSelector f)) as [pods|e] eqn:Hp.
      * rewrite (Fallback_getNodes_pods _ _ _ _ _ _ H He Hp). cbn [status].
        split.
        -- intros Hs. right. split; [eauto|]. right.
           destruct pods as [|p pods]; [reflexivity|]. exfalso.
           assert (Hj : Join (map (podEntry f) (p :: pods)) "," = "")
             by congruence.
           revert Hj. apply Join_nonempty; [|discriminate].
           apply List.Forall_map, List.Forall_forall. intros x _.
           apply nodeEntry_nonempty.
        -- intros [[e ?]|[_ [[e ?]|Hn]]]; try discriminate.
           now inversion Hn.
      * rewrite (Fallback_getNodes_pods_err _ _ _ _ _ _ H He Hp).
        cbn [status]. split; eauto 7.
    + assert (Hne : serviceAddresses f items <> [])
        by (rewrite He; discriminate).
      rewrite (Fallback_getNodes_ready _ _ _ _ _ H Hne). cbn [status]. split.
      * intros Hs. exfalso.
        assert (Hj : Join (map (entryOf f) (serviceAddresses f items)) ","
                     = "") by congruence.
        revert Hj. apply Join_nonempty.
        -- apply List.Forall_map, List.Forall_forall. intros x _.
           apply nodeEntry_nonempty.
        -- rewrite He. discriminate.
      * intros [[e ?]|[(items' & Hi & He') _]]; [discriminate|].
        inversion Hi; subst. congruence.
  - rewrite (Fallback_getNodes_err _ _ _ _ _ H). cbn [status].
    split; eauto.
Qed.

(** ** The layout of what is written *)

(** X12: when the service has [k] ready addresses, [k] at least 1, with
    host parts free of separators, the turn of the loop of the program with
    the self address writes a list of [k + 1] entries: it holds exactly [k]
    commas and [2 * (k + 1)] colons, whatever the interfaces of the host
    are. *)
Theorem X12_loop_write_layout f clients addrs n d items :
  endpointsIn (cluster n) (namespace f) = Ok items ->
  serviceAddresses f items <> [] ->
  List.Forall plainIP (serviceAddresses f items) ->
  let k := length (serviceAddresses f items) in
  let thisNode := nodeEntry (Bootstrap.firstIPv4 addrs) 8107 8108 in
  exists data,
    writes (events (Bootstrap.onNotification f clients thisNode n d))
      = [WriteFile (nodesFile f) data (fsWrite n)] /\
    count "," data = k /\
    count ":" data = 2 * (k + 1).
Proof.
  intros H Hne Hplain. cbv zeta.
  pose proof (Bootstrap_getNodes_ok f clients _ d _ H) as Hg.
  set (nodes := Join (map (entryOf f) (serviceAddresses f items)) ",") in *.
  assert (Hn : nodes <> "").
  { apply Join_nonempty.
    - apply List.Forall_map, List.Forall_forall. intros x _.
      apply nodeEntry_nonempty.
    - destruct (serviceAddresses f items); [congruence | discriminate]. }
  rewrite (Bootstrap_onNotification_found _ _ _ _ _ _ _ Hg Hn).
  cbn [events]. rewrite !writes_app, writes_writeLog. cbn.
  eexists. split; [reflexivity|].
  assert (Hlen : length (serviceAddresses f items) <> 0)
    by (destruct (serviceAddresses f items); [congruence | discriminate]).
  rewrite !count_app, count_nodeEntry_colon, count_nodeEntry_comma.
  rewrite !firstIPv4_plain by (unfold isSep; auto).
  subst nodes.
  rewrite (count_Join_uniform "," 0), (count_Join_uniform ":" 2).
  - rewrite length_map. cbn. lia.
  - apply List.Forall_map. eapply List.Forall_impl; [|exact Hplain].
    intros a [Hc _]. unfold entryOf. rewrite count_nodeEntry_colon. lia.
  - apply List.Forall_map. eapply List.Forall_impl; [|exact Hplain].
    intros a [_ Hm]. unfold entryOf. now rewrite count_nodeEntry_comma.
Qed.

(** X12 at [clusterThree] and a host with the interface 10.0.0.9. *)
Lemma X12_witness :
  exists data,
    writes (events (Bootstrap.onNotification defaultFlags clients0
                      (nodeEntry (Bootstrap.firstIPv4 [lo4; eth0]) 8107 8108)
                      {| cluster := clusterThree; fsWrite := WriteOk |} ∅))
      = [WriteFile (nodesFile defaultFlags) data WriteOk] /\
    count "," data = 3 /\
    count ":" data = 8.
Proof.
  exact (X12_loop_write_layout defaultFlags clients0 [lo4; eth0]
           {| cluster := clusterThree; fsWrite := WriteOk |} ∅
           itemsTwoSubsets eq_refl ltac:(discriminate)
           ltac:(repeat constructor)).
Defined.

(** X13: on the fallback path every listed pod gives one entry, also a pod
    that has no IP yet: for pod IPs free of separators, the empty one
    included, the result for [k] pods holds [k - 1] commas and [2 * k]
    colons, so a pod without an IP shows as the entry [:peerPort:apiPort]. *)
Theorem X13_fallback_lists_pods_without_ip f clients cl d pods :
  scanFoundNothing f cl ->
  podsIn cl (namespace f) (appSelector f) = Ok pods ->
  List.Forall (fun p => count ":" (PodIP p) = 0 /\ count "," (PodIP p) = 0)
              pods ->
  exists data,
    status (Fallback.getNodes f clients cl d) = Running data /\
    data = Join (map (fun p => PodIP p +:+ ":" +:+ itoa (peerPort f)
                                       +:+ ":" +:+ itoa (apiPort f)) pods)
                "," /\
    count "," data = pred (length pods) /\
    count ":" data = 2 * length pods.
Proof.
  intros (items & Hi & He) Hp Hplain.
  rewrite (Fallback_getNodes_pods _ _ _ _ _ _ Hi He Hp). cbn [status].
  eexists. split; [reflexivity|]. split; [reflexivity|].
  rewrite (count_Join_uniform "," 0), (count_Join_uniform ":" 2).
  - rewrite length_map. cbn. lia.
  - apply List.Forall_map. eapply List.Forall_impl; [|exact Hplain].
    intros p [Hc _]. unfold podEntry. rewrite count_nodeEntry_colon. lia.
  - apply List.Forall_map. eapply List.Forall_impl; [|exact Hplain].
    intros p [_ Hm]. unfold podEntry. now rewrite count_nodeEntry_comma.
Qed.

(** X13 at [clusterColdStart]. *)
Lemma X13_witness :
  status (Fallback.getNodes defaultFlags clients0 clusterColdStart ∅)
    = Running "10.0.0.4:8107:8108,:8107:8108".
Proof.
  destruct (X13_fallback_lists_pods_without_ip defaultFlags clients0
              clusterColdStart ∅
              [ {| PodIP := "10.0.0.4"; PodReady := false |};
                {| PodIP := ""; PodReady := false |} ]
              (ex_intro _ [ {| Name := "ts"; Subsets := [] |} ]
                        (conj eq_refl eq_refl))
              eq_refl ltac:(repeat constructor))
    as (data & Hs & Hd & _).
  rewrite Hs, Hd. reflexivity.
Defined.

(** ** Startup failures and the file *)

(** X14: in the program with the self address the watch is requested
    before the seeding block runs, so when the configuration, the client or
    the watch cannot be obtained the process exits with status 1 without
    having written anything, also when [INITIAL_NODELIST] is set: the disk
    is as it was. *)
Theorem X14_failed_startup_writes_nothing f h d :
  ~ (exists c cs w,
       configResult h = Ok c /\ newForConfig h c = Ok cs /\
       watchEndpoints h (namespace f) = Ok w) ->
  status (Bootstrap.main f h d) = Exited 1 /\
  disk (Bootstrap.main f h d) = d /\
  writes (events (Bootstrap.main f h d)) = [] /\
  exists evs msg, events (Bootstrap.main f h d) = evs ++ [Fatalf msg].
Proof.
  intros Hno. rewrite <- (Bootstrap_connect_running_iff f h d) in Hno.
  assert (Hf : forall cw, status (Bootstrap.connect f h d) <> Running cw)
    by (intros cw Hc; apply Hno; eauto).
  destruct (Bootstrap_connect_failure_fatal f h d Hf) as (_ & Hm & He).
  destruct (Bootstrap_connect_quiet f h d) as [Hd Hq].
  rewrite Hm. cbn [status disk events]. auto.
Qed.

(** X14 at [hostNoWatchSeeded]. *)
Lemma X14_witness :
  status (Bootstrap.main defaultFlags hostNoWatchSeeded oldDisk) = Exited 1 /\
  disk (Bootstrap.main defaultFlags hostNoWatchSeeded oldDisk) = oldDisk /\
  writes (events (Bootstrap.main defaultFlags hostNoWatchSeeded oldDisk)) = [].
Proof.
  destruct (X14_failed_startup_writes_nothing defaultFlags hostNoWatchSeeded
              oldDisk) as (Hs & Hd & Hw & _).
  - intros (c & cs & w & _ & _ & Hwatch). discriminate Hwatch.
  - auto.
Defined.

(** ** The service name *)

Lemma serviceAddresses_filter f items :
  serviceAddresses f
    (List.filter (fun e => String.eqb (Name e) (service f)) items)
  = serviceAddresses f items.
Proof.
  unfold serviceAddresses. induction items as [|e items IH]; [reflexivity|].
  cbn [List.filter flat_map].
  destruct (String.eqb (Name e) (service f)) eqn:Hn.
  - cbn [flat_map]. now rewrite Hn, IH.
  - exact IH.
Qed.

(** X15: both resolvers look only at the endpoint objects whose name is
    exactly the [-service] flag: dropping every other object from the
    listing changes neither the scan nor, in the program with the self
    address, the result; and when no object has that name the result of
    that program is the empty string, so its loop writes nothing. *)
Theorem X15_only_the_named_service_counts f clients cl d items :
  endpointsIn cl (namespace f) = Ok items ->
  let named := List.filter (fun e => String.eqb (Name e) (service f)) items in
  scanEndpoints f items [] = scanEndpoints f named [] /\
  status (Bootstrap.getNodes f clients cl d)
    = Running (Join (scanEndpoints f named []) ",") /\
  (named = [] ->
   status (Bootstrap.getNodes f clients cl d) = Running "" /\
   forall thisNode n,
     cluster n = cl ->
     Bootstrap.onNotification f clients thisNode n d
     = MkRun (Running tt) d [ListEndpoints (namespace f)]).
Proof.
  intros H. cbv zeta.
  assert (Hs : scanEndpoints f items [] =
               scanEndpoints f
                 (List.filter (fun e => String.eqb (Name e) (service f)) items)
                 []).
  { now rewrite !scanEndpoints_spec, serviceAddresses_filter. }
  pose proof (Bootstrap_getNodes_ok f clients cl d items H) as Hg.
  assert (Hr : Bootstrap.getNodes f clients cl d =
    MkRun (Running (Join (scanEndpoints f
             (List.filter (fun e => String.eqb (Name e) (service f)) items)
             []) ",")) d [ListEndpoints (namespace f)]).
  { rewrite Hg, <- Hs, scanEndpoints_spec. reflexivity. }
  refine (conj Hs (conj _ _)).
  - now rewrite Hr.
  - intros Hnone. rewrite Hnone in Hr. cbn in Hr. split; [now rewrite Hr|].
    intros thisNode n <-.
    exact (Bootstrap_onNotification_empty _ _ _ _ _ _ Hr).
Qed.

(** X15 at [clusterOtherService]: the name differs in case only. *)
Lemma X15_witness :
  Bootstrap.onNotification defaultFlags clients0 "10.0.0.9:8107:8108"
    {| cluster := clusterOtherService; fsWrite := WriteOk |} oldDisk
  = MkRun (Running tt) oldDisk [ListEndpoints "typesense"].
Proof.
  destruct (X15_only_the_named_service_counts defaultFlags clients0
              clusterOtherService oldDisk _ eq_refl) as (_ & _ & H).
  exact (proj2 (H eq_refl) "10.0.0.9:8107:8108"
           {| cluster := clusterOtherService; fsWrite := WriteOk |} eq_refl).
Defined.
